(** * WatchParty: the party state synchronisation engine

    A shallow embedding of the synchronisation code of the watch-party
    client: the [App] component (sync service over [localStorage], lobby
    and room handlers), the [Chat] component's submit handler and the
    Gemini responder wrapper.

    Conventions of the embedding.
    - JavaScript numbers holding playback positions are IEEE binary64 values
      ([PrimFloat.float]); millisecond clock readings ([Date.now()]) are
      natural numbers ([N]).
    - Strings are sequences of 8-bit code units.
    - [localStorage] is a finite map from keys to stored states.
      [JSON.stringify] followed by [JSON.parse] is the identity on the
      states the handlers write, so the map stores the state itself.
    - A React handler reads the state captured by its closure at render
      time (argument [a]) and queues updates that only show in the next
      render (the [app] component of the world it transforms).
    - Every call to [Date.now()], [Math.random()] or
      [URL.createObjectURL] is an explicit argument of the handler. *)

From Stdlib Require Import NArith List String Ascii Bool Lia.
From Stdlib Require Import PrimFloat DecimalString DecimalN.
From stdpp Require Import gmap strings list.

Set Warnings "-inexact-float".
Open Scope string_scope.
Open Scope list_scope.

(** ** JavaScript primitives used by the handlers *)

Module JS.

(** Truthiness of a number: [0], [-0] and [NaN] are falsy. *)
Definition truthy_number (x : float) : bool :=
  negb (PrimFloat.eqb x 0%float || PrimFloat.is_nan x).

(** Truthiness of a string: only the empty string is falsy. *)
Definition truthy_string (s : string) : bool :=
  match s with
  | EmptyString => false
  | String _ _ => true
  end.

(** Truthiness of an optional boolean property such as [m.isAi]. *)
Definition truthy_flag (b : option bool) : bool :=
  match b with
  | Some true => true
  | _ => false
  end.

(** White space removed by [String.prototype.trim], among 8-bit code
    units: TAB, LF, VT, FF, CR, SPACE and NBSP. *)
Definition is_space (c : ascii) : bool :=
  let n := N_of_ascii c in
  ((9 <=? n) && (n <=? 13) || (n =? 32) || (n =? 160))%N.

Fixpoint trimStart (s : string) : string :=
  match s with
  | EmptyString => EmptyString
  | String c r => if is_space c then trimStart r else s
  end.

Definition trimEnd (s : string) : string :=
  String.rev (trimStart (String.rev s)).

Definition trim (s : string) : string := trimEnd (trimStart s).

(** [toUpperCase] on the letters a..z; other code units are kept. *)
Definition upper_char (c : ascii) : ascii :=
  let n := N_of_ascii c in
  if ((97 <=? n) && (n <=? 122))%N then ascii_of_N (n - 32) else c.

Fixpoint toUpperCase (s : string) : string :=
  match s with
  | EmptyString => EmptyString
  | String c r => String (upper_char c) (toUpperCase r)
  end.

(** [s.includes(sub)] *)
Fixpoint includes (sub s : string) : bool :=
  String.prefix sub s ||
  match s with
  | EmptyString => false
  | String _ r => includes sub r
  end.

(** [n.toString()] for a non-negative integer: its decimal digits. *)
Definition toString (n : N) : string :=
  NilZero.string_of_uint (N.to_uint n).

(** [l.slice(-n)]: the last [n] elements, all of them when there are
    fewer. *)
Definition slice_last {A} (n : nat) (l : list A) : list A :=
  drop (length l - n) l.

(** [o.f] of the spread [{...a, ...b}]: the right operand wins where it
    has the key. *)
Definition spread_field {A} (a b : option A) : option A :=
  match b with
  | Some v => Some v
  | None => a
  end.

End JS.

(** ** Data model (types.ts) *)

Inductive VideoSourceType := FILE | YOUTUBE | DIRECT_URL.

Module VideoSource.
Record t := mk { type : VideoSourceType; url : string; name : string }.
End VideoSource.

Module ChatMessage.
Record t := mk {
  id : string;
  sender : string;
  text : string;
  timestamp : N;
  isSystem : option bool;
  isAi : option bool
}.
End ChatMessage.

Module User.
Record t := mk {
  id : string;
  name : string;
  avatar : option string;
  isHost : option bool
}.
End User.

(** A party state as an object read back from storage or passed as a
    [Partial<SyncedPartyState>] payload: any key may be missing ([None]).
    [None] also stands for [videoSource: null], which every reader in the
    code treats like a missing key. *)
Module SyncedPartyState.
Record t := mk {
  partyCode : option string;
  hostId : option string;
  videoSource : option VideoSource.t;
  isPlaying : option bool;
  currentTime : option float;
  lastUpdateTimestamp : option N;
  users : option (list User.t);
  messages : option (list ChatMessage.t)
}.

(** The empty object [{}]. *)
Definition empty : t := mk None None None None None None None None.

(** [{...a, ...b}] *)
Definition spread (a b : t) : t :=
  mk (JS.spread_field (partyCode a) (partyCode b))
     (JS.spread_field (hostId a) (hostId b))
     (JS.spread_field (videoSource a) (videoSource b))
     (JS.spread_field (isPlaying a) (isPlaying b))
     (JS.spread_field (currentTime a) (currentTime b))
     (JS.spread_field (lastUpdateTimestamp a) (lastUpdateTimestamp b))
     (JS.spread_field (users a) (users b))
     (JS.spread_field (messages a) (messages b)).
End SyncedPartyState.

Inductive ViewState := AUTH | LOBBY | ROOM.

(** The React state of the [App] component. *)
Module App.
Record t := mk {
  view : ViewState;
  currentUser : option User.t;
  partyCode : option string;
  users : list User.t;
  messages : list ChatMessage.t;
  videoSource : option VideoSource.t;
  isPlaying : bool;
  currentTime : float;
  seekRequest : option float;
  showControls : bool;
  urlInput : string;
  joinCodeInput : string;
  joinError : string
}.

Definition setView v a :=
  mk v (currentUser a) (partyCode a) (users a) (messages a) (videoSource a)
     (isPlaying a) (currentTime a) (seekRequest a) (showControls a)
     (urlInput a) (joinCodeInput a) (joinError a).
Definition setPartyCode c a :=
  mk (view a) (currentUser a) c (users a) (messages a) (videoSource a)
     (isPlaying a) (currentTime a) (seekRequest a) (showControls a)
     (urlInput a) (joinCodeInput a) (joinError a).
Definition setUsers us a :=
  mk (view a) (currentUser a) (partyCode a) us (messages a) (videoSource a)
     (isPlaying a) (currentTime a) (seekRequest a) (showControls a)
     (urlInput a) (joinCodeInput a) (joinError a).
Definition setMessages ms a :=
  mk (view a) (currentUser a) (partyCode a) (users a) ms (videoSource a)
     (isPlaying a) (currentTime a) (seekRequest a) (showControls a)
     (urlInput a) (joinCodeInput a) (joinError a).
Definition setVideoSource v a :=
  mk (view a) (currentUser a) (partyCode a) (users a) (messages a) v
     (isPlaying a) (currentTime a) (seekRequest a) (showControls a)
     (urlInput a) (joinCodeInput a) (joinError a).
Definition setIsPlaying b a :=
  mk (view a) (currentUser a) (partyCode a) (users a) (messages a)
     (videoSource a) b (currentTime a) (seekRequest a) (showControls a)
     (urlInput a) (joinCodeInput a) (joinError a).
Definition setCurrentTime x a :=
  mk (view a) (currentUser a) (partyCode a) (users a) (messages a)
     (videoSource a) (isPlaying a) x (seekRequest a) (showControls a)
     (urlInput a) (joinCodeInput a) (joinError a).
Definition setSeekRequest r a :=
  mk (view a) (currentUser a) (partyCode a) (users a) (messages a)
     (videoSource a) (isPlaying a) (currentTime a) r (showControls a)
     (urlInput a) (joinCodeInput a) (joinError a).
Definition setShowControls b a :=
  mk (view a) (currentUser a) (partyCode a) (users a) (messages a)
     (videoSource a) (isPlaying a) (currentTime a) (seekRequest a) b
     (urlInput a) (joinCodeInput a) (joinError a).
Definition setUrlInput s a :=
  mk (view a) (currentUser a) (partyCode a) (users a) (messages a)
     (videoSource a) (isPlaying a) (currentTime a) (seekRequest a)
     (showControls a) s (joinCodeInput a) (joinError a).
Definition setJoinError s a :=
  mk (view a) (currentUser a) (partyCode a) (users a) (messages a)
     (videoSource a) (isPlaying a) (currentTime a) (seekRequest a)
     (showControls a) (urlInput a) (joinCodeInput a) s.
End App.

(** ** The shared medium: [localStorage] *)

(** [items] is the content of the storage; [writes] records every
    [setItem] in the order it was issued. *)
Record Storage := mkStorage {
  items : gmap string SyncedPartyState.t;
  writes : list (string * SyncedPartyState.t)
}.

Definition getItem (key : string) (s : Storage) : option SyncedPartyState.t :=
  items s !! key.

Definition setItem (key : string) (v : SyncedPartyState.t) (s : Storage) : Storage :=
  mkStorage (<[key := v]> (items s)) (writes s ++ [(key, v)]).

(** A client and the medium it talks to. *)
Record World := mkWorld { storage : Storage; app : App.t }.

Definition upd_app (f : App.t -> App.t) (w : World) : World :=
  mkWorld (storage w) (f (app w)).

(** [`syncstream_party_${code}`] *)
Definition party_key (code : string) : string :=
  "syncstream_party_" +:+ code.

(** The three clock readings a publishing handler takes: for the id and
    the timestamp of the message it builds, and for
    [lastUpdateTimestamp]. *)
Record Clock := mkClock { t_id : N; t_ts : N; t_upd : N }.

(** ** Sync service (simulated backend over localStorage) *)

(** [Math.abs(x - y) > 2] *)
Definition significant_drift (x y : float) : bool :=
  (2 <? PrimFloat.abs (x - y))%float.

(** [syncStateFromStorage(state)]: apply a candidate state to the local
    view. [a] is the render the callback was created in (it supplies
    [currentTime]); [p] is the local view being updated. *)
Definition syncStateFromStorage (a : App.t) (state : SyncedPartyState.t)
    (p : App.t) : App.t :=
  let p :=
    match SyncedPartyState.videoSource state with
    | Some v => App.setVideoSource (Some v) p
    | None => p
    end in
  let p :=
    match SyncedPartyState.isPlaying state with
    | Some b => App.setIsPlaying b p
    | None => p
    end in
  (* Only seek if difference is significant to avoid stutter *)
  let p :=
    match SyncedPartyState.currentTime state with
    | Some t =>
        if JS.truthy_number t && significant_drift t (App.currentTime a)
        then App.setSeekRequest (Some t) p
        else p
    | None => p
    end in
  let p :=
    match SyncedPartyState.users state with
    | Some us => App.setUsers us p
    | None => p
    end in
  match SyncedPartyState.messages state with
  | Some ms => App.setMessages ms p
  | None => p
  end.

(** The truthiness test [!partyCode] fails on [null] and on the empty
    string. *)
Definition current_party (a : App.t) : option string :=
  match App.partyCode a with
  | Some c => if JS.truthy_string c then Some c else None
  | None => None
  end.

(** The object [{...currentState, ...newState, partyCode,
    lastUpdateTimestamp: Date.now()}]. *)
Definition stamped (currentState newState : SyncedPartyState.t)
    (partyCode : string) (now : N) : SyncedPartyState.t :=
  let o := SyncedPartyState.spread currentState newState in
  SyncedPartyState.mk (Some partyCode) (SyncedPartyState.hostId o)
    (SyncedPartyState.videoSource o) (SyncedPartyState.isPlaying o)
    (SyncedPartyState.currentTime o) (Some now)
    (SyncedPartyState.users o) (SyncedPartyState.messages o).

(** [updateSyncedState(newState)] *)
Definition updateSyncedState (a : App.t) (newState : SyncedPartyState.t)
    (now : N) (w : World) : World :=
  match current_party a with
  | None => w
  | Some partyCode =>
      let key := party_key partyCode in
      let currentState :=
        match getItem key (storage w) with
        | Some st => st
        | None => SyncedPartyState.empty
        end in
      let updated := stamped currentState newState partyCode now in
      (* Trigger local update immediately for the sender *)
      mkWorld (setItem key updated (storage w))
              (syncStateFromStorage a updated (app w))
  end.

(** The storage-event listener of the room: [e.key] is the changed key and
    [newValue] its new content ([None] when the key was removed). *)
Definition handleStorageChange (a : App.t) (key : string)
    (newValue : option SyncedPartyState.t) (w : World) : World :=
  match App.view a, current_party a, newValue with
  | ROOM, Some partyCode, Some state =>
      if String.eqb key (party_key partyCode)
      then upd_app (syncStateFromStorage a state) w
      else w
  | _, _, _ => w
  end.

(** One tick of the 2-second polling interval (also the initial load when
    the room is entered). *)
Definition pollTick (a : App.t) (w : World) : World :=
  match App.view a, current_party a with
  | ROOM, Some partyCode =>
      match getItem (party_key partyCode) (storage w) with
      | Some state => upd_app (syncStateFromStorage a state) w
      | None => w
      end
  | _, _ => w
  end.

(** ** Auth and lobby logic *)

Definition system_message (id text : string) (ts : N) : ChatMessage.t :=
  ChatMessage.mk id "System" text ts (Some true) None.

(** [createParty()]; [code] is the value of
    [Math.random().toString(36).substring(2, 8).toUpperCase()], [t0] and
    [t1] the two clock readings. *)
Definition createParty (a : App.t) (code : string) (t0 t1 : N)
    (w : World) : World :=
  match App.currentUser a with
  | None => w
  | Some currentUser =>
      let users :=
        [User.mk (User.id currentUser) (User.name currentUser)
                 (User.avatar currentUser) (Some true)] in
      let messages :=
        [system_message "sys_init" ("Party created! Code: " +:+ code) t1] in
      let initialState :=
        SyncedPartyState.mk (Some code) (Some (User.id currentUser)) None
          (Some false) (Some 0%float) (Some t0) (Some users) (Some messages) in
      mkWorld (setItem (party_key code) initialState (storage w))
              (App.setView ROOM
                 (App.setMessages messages
                    (App.setUsers users
                       (App.setPartyCode (Some code) (app w)))))
  end.

(** [joinParty(e)]. The result is [None] when the handler dies on a
    [TypeError]: spreading [state.users] or [state.messages] of a stored
    object that lacks the key. Nothing has been written at that point. *)
Definition joinParty (a : App.t) (t0 t1 : N) (w : World) : option World :=
  match App.currentUser a with
  | None => Some w
  | Some currentUser =>
      if negb (JS.truthy_string (JS.trim (App.joinCodeInput a))) then Some w
      else
        let code := JS.toUpperCase (JS.trim (App.joinCodeInput a)) in
        match getItem (party_key code) (storage w) with
        | None =>
            Some (upd_app (App.setJoinError "Party not found. Check the code.") w)
        | Some state =>
            match SyncedPartyState.users state, SyncedPartyState.messages state with
            | Some users, Some messages =>
                let updatedUsers := users ++ [currentUser] in
                (* Announce join *)
                let joinMsg :=
                  system_message (JS.toString t0)
                    (User.name currentUser +:+ " joined the party.") t1 in
                let newState :=
                  SyncedPartyState.mk
                    (SyncedPartyState.partyCode state)
                    (SyncedPartyState.hostId state)
                    (SyncedPartyState.videoSource state)
                    (SyncedPartyState.isPlaying state)
                    (SyncedPartyState.currentTime state)
                    (SyncedPartyState.lastUpdateTimestamp state)
                    (Some updatedUsers)
                    (Some (messages ++ [joinMsg])) in
                Some (mkWorld (setItem (party_key code) newState (storage w))
                        (App.setView ROOM (App.setPartyCode (Some code) (app w))))
            | _, _ => None
            end
        end
  end.

(** ** Room logic *)

Definition SAMPLE_VIDEOS : list VideoSource.t :=
  [ VideoSource.mk DIRECT_URL
      "http://commondatastorage.googleapis.com/gtv-videos-bucket/sample/BigBuckBunny.mp4"
      "Big Buck Bunny";
    VideoSource.mk YOUTUBE
      "https://www.youtube.com/watch?v=jfKfPfyJRdk"
      "Lofi Girl (YouTube)" ].

(** The payload every video change publishes. *)
Definition video_payload (a : App.t) (newSource : VideoSource.t)
    (text : string) (c : Clock) : SyncedPartyState.t :=
  SyncedPartyState.mk None None (Some newSource) (Some false) (Some 0%float)
    None None
    (Some (App.messages a ++ [system_message (JS.toString (t_id c)) text (t_ts c)])).

(** [handleFileSelect(e)]: [file] is [e.target.files?.[0]], as the name of
    the file; [url] is the blob URL [URL.createObjectURL(file)]. *)
Definition handleFileSelect (a : App.t) (file : option string) (url : string)
    (c : Clock) (w : World) : World :=
  match file with
  | None => w
  | Some file_name =>
      let newSource := VideoSource.mk FILE url file_name in
      updateSyncedState a
        (video_payload a newSource ("Changed video to " +:+ file_name) c)
        (t_upd c)
        (upd_app (App.setVideoSource (Some newSource)) w)
  end.

(** [handleUrlSubmit(e)] *)
Definition handleUrlSubmit (a : App.t) (c : Clock) (w : World) : World :=
  let urlInput := App.urlInput a in
  if negb (JS.truthy_string urlInput) then w
  else
    let type :=
      if JS.includes "youtube.com" urlInput || JS.includes "youtu.be" urlInput
      then YOUTUBE else DIRECT_URL in
    let newSource := VideoSource.mk type urlInput "Streamed Video" in
    updateSyncedState a
      (video_payload a newSource "Loaded video from URL" c)
      (t_upd c)
      (upd_app (fun p => App.setUrlInput "" (App.setVideoSource (Some newSource) p)) w).

(** [joinSample(sample)] *)
Definition joinSample (a : App.t) (sample : VideoSource.t) (c : Clock)
    (w : World) : World :=
  updateSyncedState a
    (video_payload a sample ("Loaded " +:+ VideoSource.name sample) c)
    (t_upd c)
    (upd_app (App.setVideoSource (Some sample)) w).

(** A payload that carries only a chat log. *)
Definition messages_payload (ms : list ChatMessage.t) : SyncedPartyState.t :=
  SyncedPartyState.mk None None None None None None None (Some ms).

(** [handleSendMessage(text)] *)
Definition handleSendMessage (a : App.t) (text : string) (c : Clock)
    (w : World) : World :=
  match App.currentUser a with
  | None => w
  | Some currentUser =>
      let msg :=
        ChatMessage.mk (JS.toString (t_id c)) (User.name currentUser) text
          (t_ts c) None None in
      (* Optimistic update *)
      let newMessages := App.messages a ++ [msg] in
      updateSyncedState a (messages_payload newMessages) (t_upd c)
        (upd_app (App.setMessages newMessages) w)
  end.

(** [handleAiResponse(text)] *)
Definition handleAiResponse (a : App.t) (text : string) (c : Clock)
    (w : World) : World :=
  let msg :=
    ChatMessage.mk (JS.toString (t_id c)) "Gemini AI" text (t_ts c)
      None (Some true) in
  let newMessages := App.messages a ++ [msg] in
  updateSyncedState a (messages_payload newMessages) (t_upd c)
    (upd_app (App.setMessages newMessages) w).

(** ** Player handlers *)

(** [resetControlsTimer()]: the controls are shown; the timer that hides
    them three seconds later is not part of the model. *)
Definition resetControlsTimer (w : World) : World :=
  upd_app (App.setShowControls true) w.

(** [togglePlay()] *)
Definition togglePlay (a : App.t) (c : Clock) (w : World) : World :=
  let newStatus := negb (App.isPlaying a) in
  let msg :=
    system_message (JS.toString (t_id c))
      (if newStatus then "Resumed video" else "Paused video") (t_ts c) in
  resetControlsTimer
    (updateSyncedState a
       (SyncedPartyState.mk None None None (Some newStatus)
          (Some (App.currentTime a)) (* Sync time on pause/play to prevent drift *)
          None None (Some (App.messages a ++ [msg])))
       (t_upd c)
       (upd_app (App.setIsPlaying newStatus) w)).

(** [handleSeek(time)]; the timer that clears [seekRequest] 100 ms later is
    not part of the model. *)
Definition handleSeek (a : App.t) (time : float) (now : N) (w : World) : World :=
  resetControlsTimer
    (updateSyncedState a
       (SyncedPartyState.mk None None None None (Some time) None None None)
       now
       (upd_app (fun p => App.setCurrentTime time (App.setSeekRequest (Some time) p)) w)).

(** [leaveParty()] *)
Definition leaveParty (w : World) : World :=
  upd_app
    (fun p =>
       App.setView LOBBY
         (App.setUsers []
            (App.setMessages []
               (App.setPartyCode None (App.setVideoSource None p)))))
    w.

(** ** The Gemini responder (services/gemini.ts) *)

Record HistoryEntry := mkEntry { role : string; content : string }.

Record Content := mkContent { c_role : string; parts : list string }.

Record Request := mkRequest { model : string; contents : list Content }.

(** What [await model.generateContent(...)] does: the promise rejects (or
    the call throws), or it resolves to a response whose [text] may be
    missing. *)
Inductive Response :=
| Rejects
| Resolves (text : option string).

Definition dquote : string := String (ascii_of_nat 34) EmptyString.

Definition systemPrompt (currentContext : string) : string :=
  "
      You are a friendly, witty movie watching companion in a virtual watch party.
      The users are currently watching: " +:+ dquote +:+ currentContext +:+ dquote +:+ ".
      Keep your responses brief (under 50 words), conversational, and fun.
      React to what they say like a friend on the couch.
      Do not be formal. Use emojis occasionally.
    ".

Section Responder.

(** [process.env.API_KEY || ''] and the SDK call. *)
Variable apiKey : string.
Variable generateContent : Request -> Response.

(** [generateAiChatResponse(history, currentContext)] *)
Definition generateAiChatResponse (history : list HistoryEntry)
    (currentContext : string) : string :=
  if negb (JS.truthy_string apiKey)
  then "I can't chat right now, my API key is missing!"
  else
    let contents :=
      mkContent "user" [systemPrompt currentContext]
      :: map (fun msg =>
                mkContent (if String.eqb (role msg) "user" then "user" else "model")
                          [content msg])
             history in
    match generateContent
            (mkRequest "gemini-2.5-flash"
               (map (fun c => mkContent (c_role c) (parts c)) contents)) with
    | Resolves (Some text) =>
        if JS.truthy_string text then text else "Thinking..."
    | Resolves None => "Thinking..."
    | Rejects => "Whoops, I got distracted. What was that?"
    end.

(** ** The chat panel (components/Chat.tsx) *)

Record Chat := mkChat { input : string; isAiMode : bool; isTyping : bool }.

(** The history built for the AI: the filter, [slice(-6)] and the role
    tagging of [handleSubmit]. *)
Definition chat_history (messages : list ChatMessage.t)
    (currentUser : User.t) : list HistoryEntry :=
  map (fun m =>
         mkEntry (if JS.truthy_flag (ChatMessage.isAi m) then "model" else "user")
                 (ChatMessage.text m))
      (JS.slice_last 6
         (List.filter
            (fun m =>
               JS.truthy_flag (ChatMessage.isAi m)
               || String.eqb (ChatMessage.sender m) (User.name currentUser))
            messages)).

(** [videoSource?.name || 'Waiting Room'] *)
Definition mediaName (a : App.t) : string :=
  match App.videoSource a with
  | Some v =>
      if JS.truthy_string (VideoSource.name v) then VideoSource.name v
      else "Waiting Room"
  | None => "Waiting Room"
  end.

(** [handleSubmit(e)] of the chat panel rendered by [a]: its props
    [messages], [onSendMessage] and [onSendAiMessage] all belong to that
    render. [during_await] is whatever else runs on the client while the
    responder is awaited. The panel is only rendered for a logged-in
    user. *)
Definition handleSubmit (a : App.t) (ch : Chat) (c_send c_ai : Clock)
    (during_await : World -> World) (w : World) : Chat * World :=
  match App.currentUser a with
  | None => (ch, w)
  | Some currentUser =>
      if negb (JS.truthy_string (JS.trim (input ch))) then (ch, w)
      else
        let text := input ch in
        if isAiMode ch then
          (* Send user message locally first *)
          let w1 := handleSendMessage a text c_send w in
          (* Construct basic history for the AI *)
          let history := chat_history (App.messages a) currentUser in
          let aiResponse := generateAiChatResponse history (mediaName a) in
          (mkChat "" (isAiMode ch) false,
           handleAiResponse a aiResponse c_ai (during_await w1))
        else
          (mkChat "" (isAiMode ch) (isTyping ch),
           handleSendMessage a text c_send w)
  end.

End Responder.

(** ** Runs of the client *)

(** The three ways the room changes the current video. *)
Inductive VideoChange :=
| SelectFile (file_name url : string)
| SubmitUrl
| ChooseSample (sample : VideoSource.t).

Definition video_change (a : App.t) (v : VideoChange) (c : Clock)
    (w : World) : World :=
  match v with
  | SelectFile file_name url => handleFileSelect a (Some file_name) url c w
  | SubmitUrl => handleUrlSubmit a c w
  | ChooseSample sample => joinSample a sample c w
  end.

(** Whether the handler gets past its own guard. *)
Definition video_change_accepted (a : App.t) (v : VideoChange) : bool :=
  match v with
  | SubmitUrl => JS.truthy_string (App.urlInput a)
  | _ => true
  end.

(** The ids of a chat log, in order. *)
Definition ids (ms : list ChatMessage.t) : list string :=
  map ChatMessage.id ms.

(** The chat log stored for party [c]. *)
Definition stored_log (c : string) (s : Storage) : option (list ChatMessage.t) :=
  getItem (party_key c) s ≫= SyncedPartyState.messages.

(** ** Notions used in the statements *)

(** Whether applying [state] forces a seek, and where to: read off a view
    with no seek pending. *)
Definition forced_seek (a : App.t) (state : SyncedPartyState.t) : option float :=
  App.seekRequest (syncStateFromStorage a state (App.setSeekRequest None a)).

(** [state] with its playback position removed. *)
Definition without_position (state : SyncedPartyState.t) : SyncedPartyState.t :=
  SyncedPartyState.mk (SyncedPartyState.partyCode state)
    (SyncedPartyState.hostId state) (SyncedPartyState.videoSource state)
    (SyncedPartyState.isPlaying state) None
    (SyncedPartyState.lastUpdateTimestamp state)
    (SyncedPartyState.users state) (SyncedPartyState.messages state).

(** What one published video change looks like. *)
Definition reset_write (src : VideoSource.t) (w' : World)
    (kv : string * SyncedPartyState.t) : Prop :=
  items (storage w') !! kv.1 = Some kv.2 /\
  SyncedPartyState.videoSource kv.2 = Some src /\
  App.videoSource (app w') = Some src /\
  SyncedPartyState.isPlaying kv.2 = Some false /\
  SyncedPartyState.currentTime kv.2 = Some 0%float.

(** Every id of [ms] is the creation id or the decimal form of a clock
    reading in [used], and no id occurs twice. *)
Definition fresh (used : list N) (ms : list ChatMessage.t) : Prop :=
  NoDup (ids ms) /\
  forall i, i ∈ ids ms ->
            i = "sys_init" \/ exists t, t ∈ used /\ i = JS.toString t.

(** The request [generateAiChatResponse] sends. *)
Definition request_for (history : list HistoryEntry) (currentContext : string)
    : Request :=
  mkRequest "gemini-2.5-flash"
    (mkContent "user" [systemPrompt currentContext]
     :: map (fun msg =>
               mkContent (if String.eqb (role msg) "user" then "user" else "model")
                         [content msg])
            history).

(** The reply text for each way the SDK call can end. *)
Definition reply_text (r : Response) : string :=
  match r with
  | Rejects => "Whoops, I got distracted. What was that?"
  | Resolves None => "Thinking..."
  | Resolves (Some text) => if JS.truthy_string text then text else "Thinking..."
  end.





(** ** Login *)

(** [setCurrentUser(user)] *)
Definition setCurrentUser (u : option User.t) (a : App.t) : App.t :=
  App.mk (App.view a) u (App.partyCode a) (App.users a) (App.messages a)
    (App.videoSource a) (App.isPlaying a) (App.currentTime a)
    (App.seekRequest a) (App.showControls a) (App.urlInput a)
    (App.joinCodeInput a) (App.joinError a).

(** [handleLogin(e)]; [nameInput] is the content of the name field and
    [random_id] the value of [Math.random().toString(36).substr(2, 9)]. *)
Definition handleLogin (nameInput random_id : string) (w : World) : World :=
  if negb (JS.truthy_string (JS.trim nameInput)) then w
  else
    let user := User.mk random_id (JS.trim nameInput) None None in
    upd_app (fun p => App.setView LOBBY (setCurrentUser (Some user) p)) w.

(** The message [handleSendMessage] builds. *)
Definition user_message (u : User.t) (text : string) (c : Clock) : ChatMessage.t :=
  ChatMessage.mk (JS.toString (t_id c)) (User.name u) text (t_ts c) None None.

(** The message [handleAiResponse] builds. *)
Definition reply_message (text : string) (c : Clock) : ChatMessage.t :=
  ChatMessage.mk (JS.toString (t_id c)) "Gemini AI" text (t_ts c) None (Some true).

(** The history entry [handleSubmit] makes of a message. *)
Definition history_entry (m : ChatMessage.t) : HistoryEntry :=
  mkEntry (if JS.truthy_flag (ChatMessage.isAi m) then "model" else "user")
          (ChatMessage.text m).



(** The roster entry [createParty] makes of its user. *)
Definition as_host (u : User.t) : User.t :=
  User.mk (User.id u) (User.name u) (User.avatar u) (Some true).

(** ** Several clients on one storage *)

(** The state [App] starts in when a tab is loaded. *)
Definition initial_app : App.t :=
  App.mk AUTH None None [] [] None false 0%float None true "" "" "".

(** [setJoinCodeInput(value)] *)
Definition setJoinCodeInput (s : string) (a : App.t) : App.t :=
  App.mk (App.view a) (App.currentUser a) (App.partyCode a) (App.users a)
    (App.messages a) (App.videoSource a) (App.isPlaying a) (App.currentTime a)
    (App.seekRequest a) (App.showControls a) (App.urlInput a) s (App.joinError a).

(** The [onChange] of the code field: [value] is what the field holds. *)
Definition typeJoinCode (value : string) (w : World) : World :=
  upd_app (fun p => App.setJoinError "" (setJoinCodeInput (JS.toUpperCase value) p)) w.

(** The [onEnded] callback handed to the player. *)
Definition handleEnded (a : App.t) (now : N) (w : World) : World :=
  updateSyncedState a
    (SyncedPartyState.mk None None None (Some false) None None None None)
    now (upd_app (App.setIsPlaying false) w).

(** [handleScreenClick()] *)
Definition handleScreenClick (a : App.t) (w : World) : World :=
  let w1 := upd_app (fun prev => App.setShowControls (negb (App.showControls prev)) prev) w in
  if negb (App.showControls a) then resetControlsTimer w1 else w1.

(** [handleSubmit] up to its [await]: both modes first send the text. *)
Definition submit_now (a : App.t) (ch : Chat) (c_send : Clock) (w : World) : World :=
  match App.currentUser a with
  | None => w
  | Some _ =>
      if negb (JS.truthy_string (JS.trim (input ch))) then w
      else handleSendMessage a (input ch) c_send w
  end.

(** Whether [handleSubmit] then waits for the responder. *)
Definition submit_awaits (a : App.t) (ch : Chat) : bool :=
  match App.currentUser a with
  | None => false
  | Some _ => JS.truthy_string (JS.trim (input ch)) && isAiMode ch
  end.

(** [handleSubmit] after its [await], still with the props of render [a]:
    the responder's answer is handed to that render's reply handler. *)
Definition submit_resume (apiKey : string) (generateContent : Request -> Response)
    (a : App.t) (c_ai : Clock) (w : World) : World :=
  match App.currentUser a with
  | None => w
  | Some currentUser =>
      handleAiResponse a
        (generateAiChatResponse apiKey generateContent
           (chat_history (App.messages a) currentUser) (mediaName a))
        c_ai w
  end.

(** A submit that is waiting for the responder: the client and the render
    whose handler will take the answer. *)
Record Pending := mkPending { p_client : nat; p_render : App.t }.

(** The tabs open on one browser profile: the storage they share, the
    state of each tab's [App], and the submits that are waiting. *)
Record System := mkSystem {
  shared : Storage;
  clients : list App.t;
  pending : list Pending
}.

(** What can happen, one callback at a time. [i] is the tab; [Resume k]
    delivers the responder's answer [r] to the [k]-th waiting submit;
    [StorageEvent i n] delivers the [n]-th write to tab [i]; [TimeUpdate]
    is the player reporting its position. *)
Inductive Event :=
| Login (i : nat) (nameInput random_id : string)
| Logout (i : nat)
| TypeJoinCode (i : nat) (value : string)
| Create (i : nat) (code : string) (t0 t1 : N)
| JoinRoom (i : nat) (t0 t1 : N)
| Leave (i : nat)
| ScreenClick (i : nat)
| TypeUrl (i : nat) (value : string)
| ChangeVideo (i : nat) (v : VideoChange) (c : Clock)
| Toggle (i : nat) (c : Clock)
| Seek (i : nat) (time : float) (now : N)
| TimeUpdate (i : nat) (time : float)
| Ended (i : nat) (now : N)
| Submit (i : nat) (ch : Chat) (c : Clock)
| Resume (k : nat) (r : Response) (c : Clock)
| Poll (i : nat)
| StorageEvent (i : nat) (n : nat).

(** The clock reading the event may turn into a message id. *)
Definition event_id (e : Event) : option N :=
  match e with
  | JoinRoom _ t0 _ => Some t0
  | ChangeVideo _ _ c | Toggle _ c | Submit _ _ c | Resume _ _ c => Some (t_id c)
  | _ => None
  end.

Definition in_view (v : ViewState) (a : App.t) : bool :=
  match App.view a, v with
  | AUTH, AUTH | LOBBY, LOBBY | ROOM, ROOM => true
  | _, _ => false
  end.

Definition has_video (a : App.t) : bool :=
  match App.videoSource a with
  | Some _ => true
  | None => false
  end.

Definition logged_in (a : App.t) : bool :=
  match App.currentUser a with
  | Some _ => true
  | None => false
  end.

(** Run handler [h] of the current render of tab [i], when the view shows
    the control it hangs on ([shown]). *)
Definition on_client (i : nat) (shown : App.t -> bool)
    (h : App.t -> World -> World) (sys : System) : System :=
  match clients sys !! i with
  | Some a =>
      if shown a then
        let w := h a (mkWorld (shared sys) a) in
        mkSystem (storage w) (<[i := app w]> (clients sys)) (pending sys)
      else sys
  | None => sys
  end.

(** The two room effects depend on [view], [partyCode] and (through
    [syncStateFromStorage]) [currentTime]: after a render that changed one
    of them they are set up again, and the first loads the stored state. *)
Definition rerun_effects (i : nat) (sys : System) : System :=
  on_client i (fun _ => true) pollTick sys.

(** One event. The login form is rendered in the AUTH view, the create and
    join forms in the lobby (the join button is enabled from four
    characters on, the code field takes up to six), everything else in the
    room: the transport controls and the screen always, the chat panel for
    a logged-in user, the video chooser while no video is loaded, the
    player once one is. *)
Definition sys_step (apiKey : string) (e : Event) (sys : System) : System :=
  match e with
  | Login i nameInput random_id =>
      on_client i (in_view AUTH) (fun _ => handleLogin nameInput random_id) sys
  | Logout i =>
      on_client i (in_view LOBBY) (fun _ => upd_app (App.setView AUTH)) sys
  | TypeJoinCode i value =>
      on_client i (fun a => in_view LOBBY a && (String.length value <=? 6)%nat)
        (fun _ => typeJoinCode value) sys
  | Create i code t0 t1 =>
      rerun_effects i
        (on_client i (in_view LOBBY) (fun a => createParty a code t0 t1) sys)
  | JoinRoom i t0 t1 =>
      rerun_effects i
        (on_client i
           (fun a => in_view LOBBY a && (4 <=? String.length (App.joinCodeInput a))%nat)
           (fun a w => default w (joinParty a t0 t1 w)) sys)
  | Leave i => on_client i (in_view ROOM) (fun _ => leaveParty) sys
  | ScreenClick i => on_client i (in_view ROOM) handleScreenClick sys
  | TypeUrl i value =>
      on_client i (fun a => in_view ROOM a && negb (has_video a))
        (fun _ => upd_app (App.setUrlInput value)) sys
  | ChangeVideo i v c =>
      on_client i (fun a => in_view ROOM a && negb (has_video a))
        (fun a => video_change a v c) sys
  | Toggle i c => on_client i (in_view ROOM) (fun a => togglePlay a c) sys
  | Seek i time now =>
      rerun_effects i
        (on_client i (in_view ROOM) (fun a => handleSeek a time now) sys)
  | TimeUpdate i time =>
      rerun_effects i
        (on_client i (fun a => in_view ROOM a && has_video a)
           (fun _ => upd_app (App.setCurrentTime time)) sys)
  | Ended i now =>
      on_client i (fun a => in_view ROOM a && has_video a)
        (fun a => handleEnded a now) sys
  | Submit i ch c =>
      match clients sys !! i with
      | Some a =>
          if in_view ROOM a && logged_in a then
            let w := submit_now a ch c (mkWorld (shared sys) a) in
            mkSystem (storage w) (<[i := app w]> (clients sys))
              (if submit_awaits a ch
               then pending sys ++ [mkPending i a]
               else pending sys)
          else sys
      | None => sys
      end
  | Resume k r c =>
      match pending sys !! k with
      | Some q =>
          match clients sys !! p_client q with
          | Some now_shown =>
              let w :=
                submit_resume apiKey (fun _ => r) (p_render q) c
                  (mkWorld (shared sys) now_shown) in
              mkSystem (storage w) (<[p_client q := app w]> (clients sys))
                (delete k (pending sys))
          | None => sys
          end
      | None => sys
      end
  | Poll i => on_client i (fun _ => true) pollTick sys
  | StorageEvent i n =>
      match writes (shared sys) !! n with
      | Some (key, state) =>
          on_client i (fun _ => true)
            (fun a => handleStorageChange a key (Some state)) sys
      | None => sys
      end
  end.

Definition sys_run (apiKey : string) (events : list Event) (sys : System) : System :=
  fold_left (fun sys e => sys_step apiKey e sys) events sys.

(** [n] freshly loaded tabs on an empty storage. *)
Definition fresh_tabs (n : nat) : System :=
  mkSystem (mkStorage ∅ []) (replicate n initial_app) [].

(** Every chat log a stored state carries is [fresh]. *)
Definition state_fresh (used : list N) (st : SyncedPartyState.t) : Prop :=
  forall ms, SyncedPartyState.messages st = Some ms -> fresh used ms.

Definition storage_fresh (used : list N) (s : Storage) : Prop :=
  (forall k st, items s !! k = Some st -> state_fresh used st) /\
  (forall k st, (k, st) ∈ writes s -> state_fresh used st).

Definition world_fresh (used : list N) (w : World) : Prop :=
  storage_fresh used (storage w) /\ fresh used (App.messages (app w)).

(** Every chat log in the system is [fresh]: the stored ones, the ones
    ever written, each tab's, and those of the renders that wait for the
    responder. *)
Definition sys_fresh (used : list N) (sys : System) : Prop :=
  storage_fresh used (shared sys) /\
  Forall (fun a => fresh used (App.messages a)) (clients sys) /\
  Forall (fun q => fresh used (App.messages (p_render q))) (pending sys).

(** ** Sample data *)

Definition alice : User.t := User.mk "k3j9x0q1z" "Alice" None None.
Definition bob : User.t := User.mk "p7m2c4v8b" "Bob" None None.

Definition empty_storage : Storage := mkStorage ∅ [].

(** The state of [App] right after login, with [codeInput] typed into the
    join form. *)
Definition in_lobby (u : User.t) (codeInput : string) : App.t :=
  App.mk LOBBY (Some u) None [] [] None false 0%float None true "" codeInput "".

(** Alice's room right after she created party ABC123 at time 1000. *)
Definition alice_room : World :=
  createParty (in_lobby alice "") "ABC123" 1000 1000
    (mkWorld empty_storage (in_lobby alice "")).

Definition tick (n : N) : Clock := mkClock n n n.

Definition chat_msg (id sender text : string) : ChatMessage.t :=
  ChatMessage.mk id sender text 0 None None.

(** A local view: in a room of party ABC123, playing the first sample at
    position [pos], with chat log [ms]. *)
Definition watching (pos : float) (ms : list ChatMessage.t) : App.t :=
  App.mk ROOM (Some bob) (Some "ABC123") [alice; bob] ms
    (head SAMPLE_VIDEOS) true pos None true "" "" "".

(** An incoming state that carries only a playback position. *)
Definition position_only (t : float) : SyncedPartyState.t :=
  SyncedPartyState.mk None None None None (Some t) None None None.

(** An incoming state that carries only a chat log. *)
Definition log_only (ms : list ChatMessage.t) : SyncedPartyState.t :=
  messages_payload ms.

(** Alice sends a message in the very millisecond in which Bob joins. *)
Definition same_ms_join : World :=
  let sent := handleSendMessage (app alice_room) "hi" (tick 5000) alice_room in
  let bob_lobby := in_lobby bob "abc123" in
  default (mkWorld (storage sent) bob_lobby)
    (joinParty bob_lobby 5000 5000 (mkWorld (storage sent) bob_lobby)).

(** Alice sends two messages within one millisecond, each from the render
    that shows the log at that moment. *)
Definition same_ms_sends : World :=
  let first := handleSendMessage (app alice_room) "first" (tick 5000) alice_room in
  handleSendMessage (app first) "second" (tick 5000) first.

(** An evening of two tabs. Alice logs in and creates a party; Bob logs in,
    types the code and joins; both chat, Alice asks the responder, picks a
    video and starts it while the answer is on its way. All clock readings
    differ. *)
Definition evening : list Event :=
  [Login 0 "Alice" "k3j9x0q1z";
   Create 0 "ABC123" 1000 1000;
   Login 1 " Bob " "p7m2c4v8b";
   TypeJoinCode 1 "abc123";
   JoinRoom 1 5001 5001;
   Poll 1;
   Submit 0 (mkChat "hi" false false) (tick 5002);
   Submit 1 (mkChat "hello" false false) (tick 5003);
   Submit 0 (mkChat "Who directed this?" true false) (tick 5004);
   ChangeVideo 0 (ChooseSample (VideoSource.mk DIRECT_URL
     "http://commondatastorage.googleapis.com/gtv-videos-bucket/sample/BigBuckBunny.mp4"
     "Big Buck Bunny")) (tick 5005);
   Toggle 0 (tick 5006);
   Resume 0 (Resolves (Some "No idea, but what a rabbit!")) (tick 5007);
   StorageEvent 1 4;
   Poll 1;
   Poll 0].

(** A responder that always rejects, and one that always resolves to
    [text]. *)
Definition rejecting : Request -> Response := fun _ => Rejects.
Definition resolving (text : option string) : Request -> Response :=
  fun _ => Resolves text.

(** The chat panel with [text] typed in and the AI switch on. *)
Definition asking (text : string) : Chat := mkChat text true false.

(** Bob's join, as announced in the chat. *)
Definition join_announcement : ChatMessage.t :=
  system_message "1700000000000" "Bob joined the party." 1700000000000.

(** Alice seeks to 300 s, and then back to the start. *)
Definition seek_forward : World :=
  handleSeek (app alice_room) 300 2000 alice_room.

Definition seek_to_start : World :=
  handleSeek (app seek_forward) 0 3000 seek_forward.

(** The position stored for party ABC123. *)
Definition stored_position (w : World) : option float :=
  getItem (party_key "ABC123") (storage w) ≫= SyncedPartyState.currentTime.

(** * Properties *)

(** ** The merge step [syncStateFromStorage], field by field *)

Ltac sync_cases state :=
  destruct state as [? ? [?|] [?|] [?|] ? [?|] [?|]];
  unfold syncStateFromStorage; cbn [SyncedPartyState.videoSource
    SyncedPartyState.isPlaying SyncedPartyState.currentTime
    SyncedPartyState.users SyncedPartyState.messages];
  repeat match goal with
  | |- context [if ?b then _ else _] => destruct b
  end.

Lemma sync_messages a state p :
  App.messages (syncStateFromStorage a state p) =
  default (App.messages p) (SyncedPartyState.messages state).
Proof. sync_cases state; reflexivity. Qed.

Lemma sync_users a state p :
  App.users (syncStateFromStorage a state p) =
  default (App.users p) (SyncedPartyState.users state).
Proof. sync_cases state; reflexivity. Qed.

Lemma sync_videoSource a state p :
  App.videoSource (syncStateFromStorage a state p) =
  match SyncedPartyState.videoSource state with
  | Some v => Some v
  | None => App.videoSource p
  end.
Proof. sync_cases state; reflexivity. Qed.

Lemma sync_isPlaying a state p :
  App.isPlaying (syncStateFromStorage a state p) =
  default (App.isPlaying p) (SyncedPartyState.isPlaying state).
Proof. sync_cases state; reflexivity. Qed.

Lemma sync_seekRequest a state p :
  App.seekRequest (syncStateFromStorage a state p) =
  match SyncedPartyState.currentTime state with
  | Some t =>
      if JS.truthy_number t && significant_drift t (App.currentTime a)
      then Some t else App.seekRequest p
  | None => App.seekRequest p
  end.
Proof. sync_cases state; reflexivity. Qed.

(** The merge touches nothing but the five synchronised fields. *)
Lemma sync_frame a state p :
  let p' := syncStateFromStorage a state p in
  App.view p' = App.view p /\
  App.currentUser p' = App.currentUser p /\
  App.partyCode p' = App.partyCode p /\
  App.currentTime p' = App.currentTime p /\
  App.showControls p' = App.showControls p /\
  App.urlInput p' = App.urlInput p /\
  App.joinCodeInput p' = App.joinCodeInput p /\
  App.joinError p' = App.joinError p.
Proof. sync_cases state; cbn; repeat split; reflexivity. Qed.

(** Two views agree when all their fields do. *)
Lemma app_ext (p q : App.t) :
  App.view p = App.view q -> App.currentUser p = App.currentUser q ->
  App.partyCode p = App.partyCode q -> App.users p = App.users q ->
  App.messages p = App.messages q -> App.videoSource p = App.videoSource q ->
  App.isPlaying p = App.isPlaying q -> App.currentTime p = App.currentTime q ->
  App.seekRequest p = App.seekRequest q -> App.showControls p = App.showControls q ->
  App.urlInput p = App.urlInput q -> App.joinCodeInput p = App.joinCodeInput q ->
  App.joinError p = App.joinError q -> p = q.
Proof. destruct p, q; cbn; intros; subst; reflexivity. Qed.

(** Applying the same state a second time changes nothing. *)
Lemma sync_idempotent a state p :
  syncStateFromStorage a state (syncStateFromStorage a state p) =
  syncStateFromStorage a state p.
Proof.
  pose proof (sync_frame a state (syncStateFromStorage a state p)) as F.
  cbv zeta in F. destruct F as (F1 & F2 & F3 & F4 & F5 & F6 & F7 & F8).
  apply app_ext; try assumption.
  - rewrite sync_users. destruct (SyncedPartyState.users state) eqn:E; cbn.
    + rewrite sync_users, E. reflexivity.
    + reflexivity.
  - rewrite sync_messages. destruct (SyncedPartyState.messages state) eqn:E; cbn.
    + rewrite sync_messages, E. reflexivity.
    + reflexivity.
  - rewrite sync_videoSource. destruct (SyncedPartyState.videoSource state) eqn:E.
    + rewrite sync_videoSource, E. reflexivity.
    + reflexivity.
  - rewrite sync_isPlaying. destruct (SyncedPartyState.isPlaying state) eqn:E; cbn.
    + rewrite sync_isPlaying, E. reflexivity.
    + reflexivity.
  - rewrite sync_seekRequest. destruct (SyncedPartyState.currentTime state) eqn:E.
    + destruct (JS.truthy_number f && significant_drift f (App.currentTime a)) eqn:G.
      * rewrite sync_seekRequest, E, G. reflexivity.
      * reflexivity.
    + reflexivity.
Qed.

(** When a seek is forced, and where to. *)
Lemma forced_seek_iff a state t :
  forced_seek a state = Some t <->
  SyncedPartyState.currentTime state = Some t /\
  JS.truthy_number t = true /\
  significant_drift t (App.currentTime a) = true.
Proof.
  unfold forced_seek. rewrite sync_seekRequest.
  cbn [App.seekRequest App.setSeekRequest].
  destruct (SyncedPartyState.currentTime state) as [u|];
    [|split; [discriminate | intros [? _]; discriminate]].
  destruct (JS.truthy_number u) eqn:T,
           (significant_drift u (App.currentTime a)) eqn:D; cbn [andb].
  - split; [intros [= <-]; auto | intros ([= <-] & _); reflexivity].
  - split; [discriminate | intros ([= <-] & _ & ?); congruence].
  - split; [discriminate | intros ([= <-] & ? & _); congruence].
  - split; [discriminate | intros ([= <-] & ? & _); congruence].
Qed.

(** ** Positional correction *)

(** C1 (the code departs from the claim). With the local position at 10 s,
    an incoming position of 11.5 s forces no seek, 13.1 s forces a seek to
    13.1 s and 12 s (a drift of exactly 2 s) forces none. An incoming
    position of 0 s drifts by 10 s, well over the threshold, and still no
    seek is forced: the presence test [state.currentTime && ...] is a
    truthiness test, which the number 0 fails. The input is one the client
    itself publishes. When Alice seeks to 300 s, Bob's next poll tick
    forces his player there; when she then seeks back to 0 s, the stored
    state has position 0 and Bob, at 300 s, is not moved, neither by the
    poll tick nor by the storage event. *)
Theorem drift_threshold_misses_seek_to_start :
  let local := watching 10 [] in
  forced_seek local (position_only 11.5) = None /\
  forced_seek local (position_only 13.1) = Some 13.1%float /\
  forced_seek local (position_only 12) = None /\
  significant_drift 0 (App.currentTime local) = true /\
  forced_seek local (position_only 0) = None /\
  stored_position seek_forward = Some 300%float /\
  App.seekRequest (app (pollTick local (mkWorld (storage seek_forward) local)))
    = Some 300%float /\
  let bob_view := watching 300 [] in
  stored_position seek_to_start = Some 0%float /\
  significant_drift 0 (App.currentTime bob_view) = true /\
  App.seekRequest (app (pollTick bob_view (mkWorld (storage seek_to_start) bob_view)))
    = None /\
  App.seekRequest
    (app (handleStorageChange bob_view (party_key "ABC123")
            (getItem (party_key "ABC123") (storage seek_to_start))
            (mkWorld (storage seek_to_start) bob_view))) = None.
Proof. vm_compute. repeat split; reflexivity. Qed.

(** C10. An incoming position of exactly 0 (either zero of the binary64
    format) never forces a seek, whatever the local position: the state is
    applied exactly as if it carried no position at all. This holds for
    both callbacks of the remote observation path, the storage-event
    listener and the poll tick. *)
Theorem zero_position_is_ignored a state p t :
  SyncedPartyState.currentTime state = Some t ->
  (t =? 0)%float = true ->
  App.seekRequest (syncStateFromStorage a state p) = App.seekRequest p /\
  forced_seek a state = None /\
  syncStateFromStorage a state p = syncStateFromStorage a (without_position state) p /\
  (forall key w,
     App.seekRequest (app (handleStorageChange a key (Some state) w)) =
     App.seekRequest (app w)) /\
  (forall c w,
     current_party a = Some c ->
     getItem (party_key c) (storage w) = Some state ->
     App.seekRequest (app (pollTick a w)) = App.seekRequest (app w)).
Proof.
  intros Ht Hz.
  assert (JS.truthy_number t = false) as Hf
    by (unfold JS.truthy_number; rewrite Hz; reflexivity).
  assert (forall q, App.seekRequest (syncStateFromStorage a state q) =
                    App.seekRequest q) as Hseek
    by (intros q; rewrite sync_seekRequest, Ht, Hf; reflexivity).
  split; [apply Hseek|]. split; [|split; [|split]].
  - unfold forced_seek. rewrite Hseek. reflexivity.
  - destruct state as [? ? ? ? ct ? ? ?]. cbn in Ht. subst ct.
    unfold syncStateFromStorage, without_position.
    cbn [SyncedPartyState.videoSource SyncedPartyState.isPlaying
         SyncedPartyState.currentTime SyncedPartyState.users
         SyncedPartyState.messages].
    rewrite Hf. reflexivity.
  - intros key w. unfold handleStorageChange.
    destruct (App.view a); try reflexivity.
    destruct (current_party a) as [c|]; [|reflexivity].
    destruct (String.eqb key (party_key c)); [apply Hseek | reflexivity].
  - intros c w Hc Hg. unfold pollTick.
    destruct (App.view a); try reflexivity.
    rewrite Hc, Hg. apply Hseek.
Qed.

Lemma zero_position_is_ignored_witness :
  let local := watching 10 [] in
  App.seekRequest (syncStateFromStorage local (position_only 0) local) =
    App.seekRequest local /\
  forced_seek local (position_only 0) = None.
Proof.
  destruct (zero_position_is_ignored (watching 10 []) (position_only 0)
              (watching 10 []) 0%float eq_refl eq_refl) as (H1 & H2 & _).
  split; [exact H1 | exact H2].
Defined.

(** ** The chat log under the merge *)

(** C2, as stated, fails. A client that has observed Bob's message and then
    receives a state whose chat log lacks it loses the message: the merge
    replaces the local log by the incoming one. *)
Lemma merge_drops_local_message :
  let hello := chat_msg "1700000000001" "Bob" "hello" in
  let local := watching 10 [hello] in
  let incoming := log_only [system_message "sys_init" "Party created! Code: ABC123" 1000] in
  hello ∈ App.messages local /\
  hello ∉ App.messages (syncStateFromStorage local incoming local).
Proof.
  cbv zeta. split.
  - apply list_elem_of_singleton. reflexivity.
  - rewrite sync_messages. cbn. rewrite list_elem_of_singleton. discriminate.
Qed.

(** C2, amended. For every local chat log and every incoming state, the
    merge replaces the local chat log by the incoming one when the incoming
    state carries a chat log, and keeps the local log otherwise. So a
    message the client has observed locally survives the merge exactly
    when the incoming chat log, if there is one, contains it. *)
Theorem merge_replaces_chat_log a state p :
  App.messages (syncStateFromStorage a state p) =
    match SyncedPartyState.messages state with
    | Some r => r
    | None => App.messages p
    end /\
  forall m,
    m ∈ App.messages p ->
    (m ∈ App.messages (syncStateFromStorage a state p) <->
     forall r, SyncedPartyState.messages state = Some r -> m ∈ r).
Proof.
  rewrite sync_messages.
  destruct (SyncedPartyState.messages state) as [r|]; cbn.
  - split; [reflexivity|]. intros m _. split.
    + intros Hm r' [= <-]. exact Hm.
    + intros H. exact (H r eq_refl).
  - split; [reflexivity|]. intros m Hm. split.
    + intros _ r. discriminate.
    + intros _. exact Hm.
Qed.

(** C3. The merge is a total function on states (no step of it can throw),
    and a field missing from the incoming state leaves the local value as
    it is: nothing is reset to a default, and the empty object changes
    nothing. The same holds for the object [updateSyncedState] publishes:
    every data field missing from the payload keeps the stored value (only
    the party code and the write stamp are always rewritten). *)
Theorem merge_absent_fields_unchanged a state p cur new code now :
  let p' := syncStateFromStorage a state p in
  (SyncedPartyState.videoSource state = None -> App.videoSource p' = App.videoSource p) /\
  (SyncedPartyState.isPlaying state = None -> App.isPlaying p' = App.isPlaying p) /\
  (SyncedPartyState.currentTime state = None -> App.seekRequest p' = App.seekRequest p) /\
  (SyncedPartyState.users state = None -> App.users p' = App.users p) /\
  (SyncedPartyState.messages state = None -> App.messages p' = App.messages p) /\
  (App.view p' = App.view p /\ App.currentUser p' = App.currentUser p /\
   App.partyCode p' = App.partyCode p /\ App.currentTime p' = App.currentTime p) /\
  syncStateFromStorage a SyncedPartyState.empty p = p /\
  let o := stamped cur new code now in
  (SyncedPartyState.hostId new = None ->
     SyncedPartyState.hostId o = SyncedPartyState.hostId cur) /\
  (SyncedPartyState.videoSource new = None ->
     SyncedPartyState.videoSource o = SyncedPartyState.videoSource cur) /\
  (SyncedPartyState.isPlaying new = None ->
     SyncedPartyState.isPlaying o = SyncedPartyState.isPlaying cur) /\
  (SyncedPartyState.currentTime new = None ->
     SyncedPartyState.currentTime o = SyncedPartyState.currentTime cur) /\
  (SyncedPartyState.users new = None ->
     SyncedPartyState.users o = SyncedPartyState.users cur) /\
  (SyncedPartyState.messages new = None ->
     SyncedPartyState.messages o = SyncedPartyState.messages cur).
Proof.
  cbv zeta.
  pose proof (sync_frame a state p) as F. cbv zeta in F.
  destruct F as (F1 & F2 & F3 & F4 & _).
  repeat split; try assumption;
    try (intros E;
         first [rewrite sync_videoSource | rewrite sync_isPlaying
               | rewrite sync_seekRequest | rewrite sync_users
               | rewrite sync_messages];
         rewrite E; reflexivity);
    try (intros E; cbn; rewrite E; reflexivity).
Qed.

(** C8, as stated, fails. Alice sends a message in the millisecond in which
    Bob joins; the stored chat log then holds two messages with id 5000.
    Merging that state into a local view, once or twice, gives the same
    view, and its chat log has a duplicate id. *)
Lemma merge_keeps_duplicate_ids :
  exists state,
    getItem (party_key "ABC123") (storage same_ms_join) = Some state /\
    let local := watching 10 [] in
    let once := syncStateFromStorage local state local in
    let twice := syncStateFromStorage local state once in
    twice = once /\ ~ NoDup (ids (App.messages twice)).
Proof.
  eexists. split; [vm_compute; reflexivity|].
  cbv zeta. split; [apply sync_idempotent|].
  rewrite sync_idempotent, sync_messages. cbn.
  intros H. apply NoDup_cons in H as [_ H]. apply NoDup_cons in H as [H _].
  apply H. left.
Qed.

(** C8, amended. For every local view and every remote chat log, merging
    the same remote chat log twice gives the same view as merging it once;
    whichever render the second merge runs in, the chat log is the remote
    one; and the result has no duplicate ids exactly when the remote log
    has none. *)
Theorem merge_chat_idempotent a a' state r p :
  SyncedPartyState.messages state = Some r ->
  let once := syncStateFromStorage a state p in
  syncStateFromStorage a state once = once /\
  App.messages (syncStateFromStorage a' state once) = App.messages once /\
  App.messages once = r /\
  (NoDup (ids (App.messages (syncStateFromStorage a' state once))) <->
   NoDup (ids r)).
Proof.
  intros E. cbv zeta.
  split; [apply sync_idempotent|].
  rewrite !sync_messages, E. cbn. split; [reflexivity|]. split; reflexivity.
Qed.

Lemma merge_chat_idempotent_witness :
  let hello := chat_msg "1700000000001" "Bob" "hello" in
  let reply := chat_msg "1700000000002" "Alice" "hi Bob" in
  let local := watching 10 [hello] in
  let once := syncStateFromStorage local (log_only [hello; reply]) local in
  syncStateFromStorage local (log_only [hello; reply]) once = once /\
  App.messages (syncStateFromStorage local (log_only [hello; reply]) once) =
    App.messages once /\
  App.messages once = [hello; reply] /\
  NoDup (ids (App.messages (syncStateFromStorage local (log_only [hello; reply]) once))).
Proof.
  cbv zeta.
  destruct (merge_chat_idempotent
              (watching 10 [chat_msg "1700000000001" "Bob" "hello"])
              (watching 10 [chat_msg "1700000000001" "Bob" "hello"])
              (log_only [chat_msg "1700000000001" "Bob" "hello";
                         chat_msg "1700000000002" "Alice" "hi Bob"])
              [chat_msg "1700000000001" "Bob" "hello";
               chat_msg "1700000000002" "Alice" "hi Bob"]
              (watching 10 [chat_msg "1700000000001" "Bob" "hello"])
              eq_refl) as (H1 & H2 & H3 & H4).
  split; [exact H1|]. split; [exact H2|]. split; [exact H3|].
  apply H4. cbn. apply NoDup_cons. split.
  - rewrite list_elem_of_singleton. discriminate.
  - apply NoDup_singleton.
Defined.

(** ** Publishing *)

Lemma updateSyncedState_in_party a new now w code :
  current_party a = Some code ->
  updateSyncedState a new now w =
  let updated :=
    stamped (default SyncedPartyState.empty (getItem (party_key code) (storage w)))
            new code now in
  mkWorld (setItem (party_key code) updated (storage w))
          (syncStateFromStorage a updated (app w)).
Proof.
  intros E. unfold updateSyncedState. rewrite E. cbv zeta.
  destruct (getItem (party_key code) (storage w)); reflexivity.
Qed.

Lemma updateSyncedState_no_party a new now w :
  current_party a = None -> updateSyncedState a new now w = w.
Proof. intros E. unfold updateSyncedState. rewrite E. reflexivity. Qed.

Lemma stored_log_setItem c v s :
  stored_log c (setItem (party_key c) v s) = SyncedPartyState.messages v.
Proof. unfold stored_log, getItem, setItem. cbn. rewrite lookup_insert_eq. reflexivity. Qed.

Lemma publish_video a src text c w0 :
  let w' := updateSyncedState a (video_payload a src text c) (t_upd c) w0 in
  App.videoSource (app w0) = Some src ->
  exists new,
    writes (storage w') = writes (storage w0) ++ new /\
    length new <= 1 /\
    (is_Some (current_party a) -> length new = 1) /\
    (new = [] -> items (storage w') = items (storage w0)) /\
    Forall (reset_write src w') new.
Proof.
  cbv zeta. intros Hsrc.
  destruct (current_party a) as [code|] eqn:E.
  - rewrite (updateSyncedState_in_party _ _ _ _ _ E). cbv zeta.
    eexists [_]. cbn [storage setItem writes items app length].
    split; [reflexivity|]. split; [lia|]. split; [reflexivity|].
    split; [discriminate|].
    constructor; [|constructor].
    unfold reset_write.
    cbn [fst snd storage app items setItem].
    rewrite lookup_insert_eq, sync_videoSource. cbn. repeat split.
  - rewrite (updateSyncedState_no_party _ _ _ _ E).
    exists []. rewrite app_nil_r.
    split; [reflexivity|]. split; [cbn; lia|].
    split; [intros [? ?]; discriminate|]. split; [reflexivity|].
    constructor.
Qed.

(** C4. Each of the three video changes (local file, URL, sample) issues at
    most one storage write, exactly one when the client is in a party and
    the handler accepts its input. That single written state, which is the
    one left in storage, carries the new video source together with
    [isPlaying = false] and position 0; the storage is untouched
    otherwise. *)
Theorem video_change_publishes_reset a v c w :
  let w' := video_change a v c w in
  exists src new,
    writes (storage w') = writes (storage w) ++ new /\
    length new <= 1 /\
    (video_change_accepted a v = true -> is_Some (current_party a) ->
     length new = 1) /\
    (new = [] -> items (storage w') = items (storage w)) /\
    Forall (reset_write src w') new /\
    match v with
    | SelectFile file_name url => src = VideoSource.mk FILE url file_name
    | SubmitUrl =>
        VideoSource.url src = App.urlInput a /\
        VideoSource.name src = "Streamed Video"
    | ChooseSample sample => src = sample
    end.
Proof.
  cbv zeta. destruct v as [file_name url| |sample]; cbn [video_change].
  - unfold handleFileSelect.
    destruct (publish_video a (VideoSource.mk FILE url file_name)
                ("Changed video to " +:+ file_name) c
                (upd_app (App.setVideoSource
                            (Some (VideoSource.mk FILE url file_name))) w)
                eq_refl) as (new & H1 & H2 & H3 & H4 & H5).
    exists (VideoSource.mk FILE url file_name), new.
    repeat split; auto.
  - unfold handleUrlSubmit. cbv zeta. cbn [video_change_accepted].
    destruct (JS.truthy_string (App.urlInput a)) eqn:U; cbn [negb].
    + match goal with
      | |- context [VideoSource.mk ?ty (App.urlInput a) "Streamed Video"] =>
          set (src := VideoSource.mk ty (App.urlInput a) "Streamed Video")
      end.
      destruct (publish_video a src "Loaded video from URL" c
                  (upd_app (fun p => App.setUrlInput ""
                                       (App.setVideoSource (Some src) p)) w)
                  eq_refl) as (new & H1 & H2 & H3 & H4 & H5).
      exists src, new. repeat split; auto.
    + exists (VideoSource.mk DIRECT_URL (App.urlInput a) "Streamed Video"), [].
      rewrite app_nil_r. repeat split; auto; discriminate.
  - unfold joinSample.
    destruct (publish_video a sample ("Loaded " +:+ VideoSource.name sample) c
                (upd_app (App.setVideoSource (Some sample)) w)
                eq_refl) as (new & H1 & H2 & H3 & H4 & H5).
    exists sample, new. repeat split; auto.
Qed.

(** ** Joining a party *)




(** ** The AI reply *)

Lemma handleAiResponse_messages a text c w :
  App.messages (app (handleAiResponse a text c w)) =
  App.messages a ++
    [ChatMessage.mk (JS.toString (t_id c)) "Gemini AI" text (t_ts c) None (Some true)].
Proof.
  unfold handleAiResponse. cbv zeta.
  destruct (current_party a) as [code|] eqn:E.
  - rewrite (updateSyncedState_in_party _ _ _ _ _ E). cbv zeta.
    cbn [app]. rewrite sync_messages. reflexivity.
  - rewrite (updateSyncedState_no_party _ _ _ _ E). reflexivity.
Qed.

Lemma handleAiResponse_stored a text c w code :
  current_party a = Some code ->
  stored_log code (storage (handleAiResponse a text c w)) =
  Some (App.messages a ++
          [ChatMessage.mk (JS.toString (t_id c)) "Gemini AI" text (t_ts c)
             None (Some true)]).
Proof.
  intros E. unfold handleAiResponse. cbv zeta.
  rewrite (updateSyncedState_in_party _ _ _ _ _ E). cbv zeta.
  cbn [storage]. rewrite stored_log_setItem. reflexivity.
Qed.

Lemma generateAiChatResponse_with_key apiKey generateContent history currentContext :
  JS.truthy_string apiKey = true ->
  generateAiChatResponse apiKey generateContent history currentContext =
  reply_text (generateContent (request_for history currentContext)).
Proof.
  intros K. unfold generateAiChatResponse. rewrite K. cbn [negb]. cbv zeta.
  cbn [List.map c_role parts]. rewrite List.map_map. cbn [c_role parts].
  unfold request_for.
  destruct (generateContent _) as [|[text|]]; reflexivity.
Qed.




(** ** The history handed to the responder *)


Lemma slice_last_length {A} (n : nat) (l : list A) :
  length (JS.slice_last n l) = min n (length l).
Proof. unfold JS.slice_last. rewrite length_drop. lia. Qed.





(** ** Message ids *)

Lemma toString_parses (n : N) :
  NilZero.uint_of_string (JS.toString n) = Some (N.to_uint n).
Proof.
  unfold JS.toString. apply NilZero.usu.
  destruct n as [|p]; [discriminate|]. apply DecimalPos.Unsigned.to_uint_nonnil.
Qed.

Lemma toString_inj (n m : N) : JS.toString n = JS.toString m -> n = m.
Proof.
  intros E. apply DecimalN.Unsigned.to_uint_inj.
  pose proof (toString_parses n) as Hn. rewrite E, toString_parses in Hn.
  congruence.
Qed.

Lemma toString_not_sys_init (n : N) : JS.toString n <> "sys_init".
Proof.
  intros E. pose proof (toString_parses n) as Hn. rewrite E in Hn.
  discriminate Hn.
Qed.

Lemma ids_app (l k : list ChatMessage.t) : ids (l ++ k) = ids l ++ ids k.
Proof. apply List.map_app. Qed.

Lemma fresh_mono used t ms : fresh used ms -> fresh (t :: used) ms.
Proof.
  intros [Hnd Hids]. split; [exact Hnd|].
  intros i Hi. destruct (Hids i Hi) as [->|(t' & Ht' & ->)]; [left; reflexivity|].
  right. exists t'. split; [apply elem_of_cons; right; exact Ht' | reflexivity].
Qed.

Lemma fresh_snoc used t ms msg :
  fresh used ms -> t ∉ used -> ChatMessage.id msg = JS.toString t ->
  fresh (t :: used) (ms ++ [msg]).
Proof.
  intros [Hnd Hids] Ht Hid. split.
  - rewrite ids_app. apply NoDup_app. split; [exact Hnd|]. split.
    + intros i Hi Hin. cbn in Hin. apply list_elem_of_singleton in Hin.
      rewrite Hid in Hin. subst i.
      destruct (Hids _ Hi) as [E|(t' & Ht' & E)].
      * exact (toString_not_sys_init t E).
      * apply toString_inj in E. subst t'. exact (Ht Ht').
    + apply NoDup_singleton.
  - intros i Hi. rewrite ids_app in Hi. apply elem_of_app in Hi as [Hi|Hi].
    + destruct (Hids i Hi) as [->|(t' & Ht' & ->)]; [left; reflexivity|].
      right. exists t'. split; [apply elem_of_cons; right; exact Ht' | reflexivity].
    + cbn in Hi. apply list_elem_of_singleton in Hi. subst i.
      right. exists t. split; [apply elem_of_cons; left; reflexivity | exact Hid].
Qed.

Lemma current_party_ext (p q : App.t) :
  App.partyCode p = App.partyCode q -> current_party p = current_party q.
Proof. unfold current_party. intros ->. reflexivity. Qed.

(** ** Uniqueness of message ids *)

(** C9, as stated, fails. Two messages sent within one millisecond both get
    that millisecond as their id. *)
Lemma same_ms_sends_share_id :
  ids (App.messages (app same_ms_sends)) = ["sys_init"; "5000"; "5000"] /\
  ~ NoDup (ids (App.messages (app same_ms_sends))).
Proof.
  assert (ids (App.messages (app same_ms_sends)) = ["sys_init"; "5000"; "5000"])
    as E by (vm_compute; reflexivity).
  split; [exact E|]. rewrite E.
  intros H. apply NoDup_cons in H as [_ H]. apply NoDup_cons in H as [H _].
  apply H. left.
Qed.

(** *** The invariant: every chat log is fresh *)

Lemma fresh_weaken U U' ms : U ⊆ U' -> fresh U ms -> fresh U' ms.
Proof.
  intros Hsub [Hnd Hids]. split; [exact Hnd|].
  intros i Hi. destruct (Hids i Hi) as [->|(t & Ht & ->)]; [left; reflexivity|].
  right. exists t. split; [apply Hsub, Ht | reflexivity].
Qed.

Lemma fresh_nil U : fresh U [].
Proof.
  split; [apply NoDup_nil; exact I|]. intros i Hi. apply elem_of_nil in Hi.
  contradiction.
Qed.

Lemma state_fresh_weaken U U' st : U ⊆ U' -> state_fresh U st -> state_fresh U' st.
Proof. intros Hsub H ms Hms. exact (fresh_weaken U U' ms Hsub (H ms Hms)). Qed.

Lemma storage_fresh_weaken U U' s :
  U ⊆ U' -> storage_fresh U s -> storage_fresh U' s.
Proof.
  intros Hsub [H1 H2]. split.
  - intros k st Hk. exact (state_fresh_weaken U U' st Hsub (H1 k st Hk)).
  - intros k st Hk. exact (state_fresh_weaken U U' st Hsub (H2 k st Hk)).
Qed.

Lemma world_fresh_weaken U U' w : U ⊆ U' -> world_fresh U w -> world_fresh U' w.
Proof.
  intros Hsub [H1 H2].
  split; [exact (storage_fresh_weaken U U' _ Hsub H1)
         | exact (fresh_weaken U U' _ Hsub H2)].
Qed.

Lemma setItem_fresh U k v s :
  storage_fresh U s -> state_fresh U v -> storage_fresh U (setItem k v s).
Proof.
  intros [H1 H2] Hv. split; cbn [setItem items writes].
  - intros k' st Hk. apply lookup_insert_Some in Hk as [[_ <-]|[_ Hk]];
      [exact Hv | exact (H1 k' st Hk)].
  - intros k' st Hk. apply elem_of_app in Hk as [Hk|Hk]; [exact (H2 k' st Hk)|].
    apply list_elem_of_singleton in Hk. injection Hk as -> ->. exact Hv.
Qed.

Lemma sync_fresh U a st p :
  fresh U (App.messages p) -> state_fresh U st ->
  fresh U (App.messages (syncStateFromStorage a st p)).
Proof.
  intros Hp Hst. rewrite sync_messages.
  destruct (SyncedPartyState.messages st) as [ms|] eqn:E; cbn;
    [exact (Hst ms E) | exact Hp].
Qed.

(** A handler step that leaves the chat log of the view alone. *)
Lemma world_fresh_upd U f w :
  (forall p, App.messages (f p) = App.messages p) ->
  world_fresh U w -> world_fresh U (upd_app f w).
Proof. intros Hf [H1 H2]. split; [exact H1|]. cbn. rewrite Hf. exact H2. Qed.

Lemma update_fresh U a payload now w :
  world_fresh U w -> state_fresh U payload ->
  world_fresh U (updateSyncedState a payload now w).
Proof.
  intros [Hs Hp] Hpay. unfold updateSyncedState.
  destruct (current_party a) as [c|]; [|split; assumption]. cbv zeta.
  match goal with
  | |- world_fresh _ (mkWorld (setItem _ ?u _) _) =>
      assert (state_fresh U u) as Hup
  end.
  { intros ms Hms. cbn in Hms.
    destruct (SyncedPartyState.messages payload) as [pm|] eqn:Ep.
    - cbn in Hms. injection Hms as <-. exact (Hpay pm Ep).
    - cbn in Hms.
      destruct (getItem (party_key c) (storage w)) as [st|] eqn:G.
      + exact (proj1 Hs _ st G ms Hms).
      + discriminate Hms. }
  split; cbn [storage app].
  - apply setItem_fresh; assumption.
  - apply sync_fresh; assumption.
Qed.

(** Publishing the render's chat log extended by one message with a new
    id; [q] is the view as the handler has queued it so far. *)
Lemma publish_snoc_fresh U a payload now w q msg t :
  fresh U (App.messages a) ->
  storage_fresh U (storage w) ->
  t ∉ U ->
  ChatMessage.id msg = JS.toString t ->
  SyncedPartyState.messages payload = Some (App.messages a ++ [msg]) ->
  fresh (t :: U) (App.messages q) ->
  world_fresh (t :: U) (updateSyncedState a payload now (mkWorld (storage w) q)).
Proof.
  intros Ha Hs Ht Hid Hpay Hq. apply update_fresh.
  - split; [|exact Hq]. apply (storage_fresh_weaken U); [|exact Hs].
    intros x Hx. right. exact Hx.
  - intros ms Hms. rewrite Hpay in Hms. injection Hms as <-.
    apply fresh_snoc; assumption.
Qed.

Lemma subseteq_cons_list (t : N) (U : list N) : U ⊆ t :: U.
Proof. intros x Hx. right. exact Hx. Qed.

Lemma handleSendMessage_fresh U a text c w :
  fresh U (App.messages a) -> world_fresh U w -> t_id c ∉ U ->
  world_fresh (t_id c :: U) (handleSendMessage a text c w).
Proof.
  intros Ha Hw Ht. unfold handleSendMessage.
  destruct (App.currentUser a) as [u|];
    [|exact (world_fresh_weaken _ _ _ (subseteq_cons_list _ _) Hw)].
  cbv zeta.
  eapply (publish_snoc_fresh U a _ _ w); [exact Ha | exact (proj1 Hw) | exact Ht | ..];
    cycle 1; [reflexivity | | reflexivity].
  cbn. apply fresh_snoc; [exact Ha | exact Ht | reflexivity].
Qed.

Lemma handleAiResponse_fresh U a text c w :
  fresh U (App.messages a) -> world_fresh U w -> t_id c ∉ U ->
  world_fresh (t_id c :: U) (handleAiResponse a text c w).
Proof.
  intros Ha Hw Ht. unfold handleAiResponse. cbv zeta.
  eapply (publish_snoc_fresh U a _ _ w); [exact Ha | exact (proj1 Hw) | exact Ht | ..];
    cycle 1; [reflexivity | | reflexivity].
  cbn. apply fresh_snoc; [exact Ha | exact Ht | reflexivity].
Qed.

Lemma togglePlay_fresh U a c w :
  fresh U (App.messages a) -> world_fresh U w -> t_id c ∉ U ->
  world_fresh (t_id c :: U) (togglePlay a c w).
Proof.
  intros Ha Hw Ht. unfold togglePlay, resetControlsTimer. cbv zeta.
  apply world_fresh_upd; [reflexivity|].
  eapply (publish_snoc_fresh U a _ _ w); [exact Ha | exact (proj1 Hw) | exact Ht | ..];
    cycle 1; [reflexivity | | reflexivity].
  cbn. exact (fresh_weaken _ _ _ (subseteq_cons_list _ _) (proj2 Hw)).
Qed.

Lemma video_payload_fresh U a src text c w q :
  fresh U (App.messages a) -> world_fresh U w -> t_id c ∉ U ->
  App.messages q = App.messages (app w) ->
  world_fresh (t_id c :: U)
    (updateSyncedState a (video_payload a src text c) (t_upd c)
       (mkWorld (storage w) q)).
Proof.
  intros Ha Hw Ht Hq.
  eapply (publish_snoc_fresh U a _ _ w); [exact Ha | exact (proj1 Hw) | exact Ht | ..];
    cycle 1; [reflexivity | | reflexivity].
  rewrite Hq. exact (fresh_weaken _ _ _ (subseteq_cons_list _ _) (proj2 Hw)).
Qed.

Lemma video_change_fresh U a v c w :
  fresh U (App.messages a) -> world_fresh U w -> t_id c ∉ U ->
  world_fresh (t_id c :: U) (video_change a v c w).
Proof.
  intros Ha Hw Ht. destruct v as [file_name url| |sample]; cbn [video_change].
  - unfold handleFileSelect. apply video_payload_fresh; auto.
  - unfold handleUrlSubmit. cbv zeta.
    destruct (JS.truthy_string (App.urlInput a)); cbn [negb];
      [|exact (world_fresh_weaken _ _ _ (subseteq_cons_list _ _) Hw)].
    apply video_payload_fresh; auto.
  - unfold joinSample. apply video_payload_fresh; auto.
Qed.

Lemma no_log_payload_fresh U a payload now w :
  SyncedPartyState.messages payload = None ->
  world_fresh U w -> world_fresh U (updateSyncedState a payload now w).
Proof.
  intros Hpay Hw. apply update_fresh; [exact Hw|].
  intros ms Hms. rewrite Hpay in Hms. discriminate Hms.
Qed.

Lemma handleSeek_fresh U a time now w :
  world_fresh U w -> world_fresh U (handleSeek a time now w).
Proof.
  intros Hw. unfold handleSeek, resetControlsTimer.
  apply world_fresh_upd; [reflexivity|].
  apply no_log_payload_fresh; [reflexivity|].
  apply world_fresh_upd; [reflexivity | exact Hw].
Qed.

Lemma handleEnded_fresh U a now w :
  world_fresh U w -> world_fresh U (handleEnded a now w).
Proof.
  intros Hw. unfold handleEnded.
  apply no_log_payload_fresh; [reflexivity|].
  apply world_fresh_upd; [reflexivity | exact Hw].
Qed.

Lemma createParty_fresh U a code t0 t1 w :
  world_fresh U w -> world_fresh U (createParty a code t0 t1 w).
Proof.
  intros Hw. unfold createParty.
  destruct (App.currentUser a) as [u|]; [|exact Hw]. cbv zeta.
  assert (fresh U [system_message "sys_init" ("Party created! Code: " +:+ code) t1])
    as Hf.
  { split; [apply NoDup_singleton|].
    intros i Hi. cbn in Hi. apply list_elem_of_singleton in Hi. left. exact Hi. }
  split; cbn [storage app].
  - apply setItem_fresh; [exact (proj1 Hw)|].
    intros ms [= <-]. exact Hf.
  - exact Hf.
Qed.

Lemma joinParty_fresh U a t0 t1 w :
  world_fresh U w -> t0 ∉ U ->
  world_fresh (t0 :: U) (default w (joinParty a t0 t1 w)).
Proof.
  intros Hw Ht.
  pose proof (world_fresh_weaken _ _ _ (subseteq_cons_list t0 U) Hw) as Hw'.
  unfold joinParty.
  destruct (App.currentUser a) as [u|]; [|exact Hw'].
  destruct (negb _); [exact Hw'|]. cbv zeta.
  destruct (getItem _ (storage w)) as [state|] eqn:G.
  - destruct (SyncedPartyState.users state) as [users|]; [|exact Hw'].
    destruct (SyncedPartyState.messages state) as [messages|] eqn:M; [|exact Hw'].
    cbn [default]. split; cbn [storage app].
    + apply setItem_fresh; [exact (proj1 Hw')|].
      intros ms [= <-]. apply fresh_snoc; [|exact Ht | reflexivity].
      exact (proj1 (proj1 Hw) _ state G messages M).
    + exact (proj2 Hw').
  - cbn [default]. apply world_fresh_upd; [reflexivity | exact Hw'].
Qed.

Lemma pollTick_fresh U a w : world_fresh U w -> world_fresh U (pollTick a w).
Proof.
  intros Hw. unfold pollTick. destruct (App.view a); try exact Hw.
  destruct (current_party a) as [c|]; [|exact Hw].
  destruct (getItem (party_key c) (storage w)) as [state|] eqn:G; [|exact Hw].
  split; [exact (proj1 Hw)|]. cbn.
  apply sync_fresh; [exact (proj2 Hw) | exact (proj1 (proj1 Hw) _ state G)].
Qed.

Lemma handleStorageChange_fresh U a key state w :
  world_fresh U w -> state_fresh U state ->
  world_fresh U (handleStorageChange a key (Some state) w).
Proof.
  intros Hw Hst. unfold handleStorageChange. destruct (App.view a); try exact Hw.
  destruct (current_party a) as [c|]; [|exact Hw].
  destruct (String.eqb key (party_key c)); [|exact Hw].
  split; [exact (proj1 Hw)|]. cbn.
  apply sync_fresh; [exact (proj2 Hw) | exact Hst].
Qed.

Lemma leaveParty_fresh U w : world_fresh U w -> world_fresh U (leaveParty w).
Proof. intros Hw. split; [exact (proj1 Hw) | apply fresh_nil]. Qed.

Lemma handleLogin_fresh U nameInput random_id w :
  world_fresh U w -> world_fresh U (handleLogin nameInput random_id w).
Proof.
  intros Hw. unfold handleLogin. destruct (negb _); [exact Hw|].
  apply world_fresh_upd; [reflexivity | exact Hw].
Qed.

Lemma submit_now_fresh U a ch c w :
  fresh U (App.messages a) -> world_fresh U w -> t_id c ∉ U ->
  world_fresh (t_id c :: U) (submit_now a ch c w).
Proof.
  intros Ha Hw Ht.
  pose proof (world_fresh_weaken _ _ _ (subseteq_cons_list (t_id c) U) Hw) as Hw'.
  unfold submit_now. destruct (App.currentUser a); [|exact Hw'].
  destruct (negb _); [exact Hw'|]. apply handleSendMessage_fresh; assumption.
Qed.

Lemma submit_resume_fresh U apiKey generateContent a c w :
  fresh U (App.messages a) -> world_fresh U w -> t_id c ∉ U ->
  world_fresh (t_id c :: U) (submit_resume apiKey generateContent a c w).
Proof.
  intros Ha Hw Ht. unfold submit_resume.
  destruct (App.currentUser a);
    [|exact (world_fresh_weaken _ _ _ (subseteq_cons_list _ _) Hw)].
  apply handleAiResponse_fresh; assumption.
Qed.

(** The split of [handleSubmit] at its [await] is [handleSubmit]. *)
Lemma handleSubmit_split apiKey generateContent a ch c_send c_ai during_await w :
  (handleSubmit apiKey generateContent a ch c_send c_ai during_await w).2 =
  if submit_awaits a ch
  then submit_resume apiKey generateContent a c_ai
         (during_await (submit_now a ch c_send w))
  else submit_now a ch c_send w.
Proof.
  unfold handleSubmit, submit_awaits, submit_now, submit_resume.
  destruct (App.currentUser a) as [u|]; [|reflexivity].
  destruct (JS.truthy_string (JS.trim (input ch))); cbn [negb andb];
    [|reflexivity].
  destruct (isAiMode ch); reflexivity.
Qed.

(** *** The invariant along a run *)

Lemma sys_fresh_weaken U U' sys : U ⊆ U' -> sys_fresh U sys -> sys_fresh U' sys.
Proof.
  intros Hsub (H1 & H2 & H3). split; [|split].
  - exact (storage_fresh_weaken U U' _ Hsub H1).
  - eapply Forall_impl; [exact H2|]. intros a. apply fresh_weaken, Hsub.
  - eapply Forall_impl; [exact H3|]. intros q. apply fresh_weaken, Hsub.
Qed.

(** The result of a handler of tab [i] put back into the system. *)
Lemma put_back_fresh U sys i w pend :
  world_fresh U w ->
  Forall (fun a => fresh U (App.messages a)) (clients sys) ->
  Forall (fun q => fresh U (App.messages (p_render q))) pend ->
  sys_fresh U (mkSystem (storage w) (<[i := app w]> (clients sys)) pend).
Proof.
  intros [Hs Hp] Hc Hq. split; [exact Hs|]. split; [|exact Hq].
  cbn [clients]. apply Forall_insert; assumption.
Qed.

Lemma on_client_fresh U U' i shown h sys :
  U ⊆ U' ->
  sys_fresh U sys ->
  (forall a w, fresh U (App.messages a) -> world_fresh U w ->
               world_fresh U' (h a w)) ->
  sys_fresh U' (on_client i shown h sys).
Proof.
  intros Hsub Hsys Hh.
  pose proof (sys_fresh_weaken U U' sys Hsub Hsys) as (_ & Hc' & Hq').
  destruct Hsys as (Hs & Hc & Hq).
  unfold on_client.
  destruct (clients sys !! i) as [a|] eqn:E;
    [|exact (sys_fresh_weaken U U' sys Hsub (conj Hs (conj Hc Hq)))].
  destruct (shown a);
    [|exact (sys_fresh_weaken U U' sys Hsub (conj Hs (conj Hc Hq)))].
  cbv zeta.
  assert (fresh U (App.messages a)) as Ha
    by exact (proj1 (Forall_lookup _ _) Hc i a E).
  apply put_back_fresh; [|exact Hc' | exact Hq'].
  apply Hh; [exact Ha|]. split; [exact Hs | exact Ha].
Qed.

Lemma rerun_effects_fresh U i sys :
  sys_fresh U sys -> sys_fresh U (rerun_effects i sys).
Proof.
  intros Hsys. unfold rerun_effects.
  apply (on_client_fresh U U); [intros x Hx; exact Hx | exact Hsys|].
  intros a w _ Hw. apply pollTick_fresh, Hw.
Qed.

(** An event that makes no message id keeps the invariant as it is. *)
Lemma sys_step_fresh_silent U apiKey e sys :
  event_id e = None -> sys_fresh U sys -> sys_fresh U (sys_step apiKey e sys).
Proof.
  intros He Hsys.
  assert (U ⊆ U) as Hsub by (intros x Hx; exact Hx).
  destruct e; try discriminate He; cbn [sys_step].
  - apply (on_client_fresh U U); [exact Hsub | exact Hsys|]. intros a w Ha Hw.
    apply handleLogin_fresh, Hw.
  - apply (on_client_fresh U U); [exact Hsub | exact Hsys|]. intros a w Ha Hw.
    apply world_fresh_upd; [reflexivity | exact Hw].
  - apply (on_client_fresh U U); [exact Hsub | exact Hsys|]. intros a w Ha Hw.
    apply world_fresh_upd; [reflexivity | exact Hw].
  - apply rerun_effects_fresh.
    apply (on_client_fresh U U); [exact Hsub | exact Hsys|]. intros a w Ha Hw.
    apply createParty_fresh, Hw.
  - apply (on_client_fresh U U); [exact Hsub | exact Hsys|]. intros a w Ha Hw.
    apply leaveParty_fresh, Hw.
  - apply (on_client_fresh U U); [exact Hsub | exact Hsys|]. intros a w Ha Hw.
    unfold handleScreenClick. cbv zeta.
    destruct (negb (App.showControls a)); unfold resetControlsTimer;
      repeat (apply world_fresh_upd; [reflexivity|]); exact Hw.
  - apply (on_client_fresh U U); [exact Hsub | exact Hsys|]. intros a w Ha Hw.
    apply world_fresh_upd; [reflexivity | exact Hw].
  - apply rerun_effects_fresh.
    apply (on_client_fresh U U); [exact Hsub | exact Hsys|]. intros a w Ha Hw.
    apply handleSeek_fresh, Hw.
  - apply rerun_effects_fresh.
    apply (on_client_fresh U U); [exact Hsub | exact Hsys|]. intros a w Ha Hw.
    apply world_fresh_upd; [reflexivity | exact Hw].
  - apply (on_client_fresh U U); [exact Hsub | exact Hsys|]. intros a w Ha Hw.
    apply handleEnded_fresh, Hw.
  - apply (on_client_fresh U U); [exact Hsub | exact Hsys|]. intros a w Ha Hw.
    apply pollTick_fresh, Hw.
  - destruct (writes (shared sys) !! n) as [[key state]|] eqn:E; [|exact Hsys].
    apply (on_client_fresh U U); [exact Hsub | exact Hsys|]. intros a w Ha Hw.
    apply handleStorageChange_fresh; [exact Hw|].
    apply (proj2 (proj1 Hsys) key state).
    apply list_elem_of_lookup. exists n. exact E.
Qed.

(** An event that reads the clock for an id keeps the invariant once that
    reading is counted as used, provided it was not used before. *)
Lemma sys_step_fresh_id U apiKey e t sys :
  event_id e = Some t -> t ∉ U -> sys_fresh U sys ->
  sys_fresh (t :: U) (sys_step apiKey e sys).
Proof.
  intros He Ht Hsys.
  pose proof (subseteq_cons_list t U) as Hsub.
  destruct e; try discriminate He; cbn in He; injection He as <-; cbn [sys_step].
  - apply rerun_effects_fresh.
    apply (on_client_fresh U); [exact Hsub | exact Hsys|]. intros a w Ha Hw.
    apply joinParty_fresh; assumption.
  - apply (on_client_fresh U); [exact Hsub | exact Hsys|]. intros a w Ha Hw.
    apply video_change_fresh; assumption.
  - apply (on_client_fresh U); [exact Hsub | exact Hsys|]. intros a w Ha Hw.
    apply togglePlay_fresh; assumption.
  - pose proof (sys_fresh_weaken U _ sys Hsub Hsys) as Hsys'.
    destruct (clients sys !! i) as [a|] eqn:E; [|exact Hsys'].
    destruct (in_view ROOM a && logged_in a); [|exact Hsys']. cbv zeta.
    assert (fresh U (App.messages a)) as Ha
      by exact (proj1 (Forall_lookup _ _) (proj1 (proj2 Hsys)) i a E).
    apply put_back_fresh.
    + apply submit_now_fresh; [exact Ha | | exact Ht].
      split; [exact (proj1 Hsys) | exact Ha].
    + exact (proj1 (proj2 Hsys')).
    + destruct (submit_awaits a ch); [|exact (proj2 (proj2 Hsys'))].
      apply Forall_app. split; [exact (proj2 (proj2 Hsys'))|].
      apply Forall_singleton. cbn. exact (fresh_weaken U _ _ Hsub Ha).
  - pose proof (sys_fresh_weaken U _ sys Hsub Hsys) as Hsys'.
    destruct (pending sys !! k) as [q|] eqn:Eq; [|exact Hsys'].
    destruct (clients sys !! p_client q) as [now_shown|] eqn:E; [|exact Hsys'].
    cbv zeta.
    assert (fresh U (App.messages (p_render q))) as Hq
      by exact (proj1 (Forall_lookup _ _) (proj2 (proj2 Hsys)) k q Eq).
    assert (fresh U (App.messages now_shown)) as Ha
      by exact (proj1 (Forall_lookup _ _) (proj1 (proj2 Hsys)) _ _ E).
    apply put_back_fresh.
    + apply submit_resume_fresh; [exact Hq | | exact Ht].
      split; [exact (proj1 Hsys) | exact Ha].
    + exact (proj1 (proj2 Hsys')).
    + apply Forall_delete. exact (proj2 (proj2 Hsys')).
Qed.

Lemma sys_run_cons apiKey e events sys :
  sys_run apiKey (e :: events) sys = sys_run apiKey events (sys_step apiKey e sys).
Proof. reflexivity. Qed.

Lemma sys_run_fresh apiKey events :
  forall U sys,
    sys_fresh U sys ->
    NoDup (omap event_id events) ->
    (forall t, t ∈ omap event_id events -> t ∉ U) ->
    exists U', sys_fresh U' (sys_run apiKey events sys).
Proof.
  induction events as [|e events IH]; intros U sys Hsys Hnd Hnew.
  - exists U. exact Hsys.
  - rewrite sys_run_cons. cbn [omap list_omap] in Hnd, Hnew.
    destruct (event_id e) as [t|] eqn:He.
    + apply NoDup_cons in Hnd as [Ht Hnd].
      apply (IH (t :: U)); [|exact Hnd|].
      * apply sys_step_fresh_id; [exact He | | exact Hsys].
        apply Hnew. left.
      * intros t' Ht' Hin. apply elem_of_cons in Hin as [->|Hin];
          [exact (Ht Ht')|].
        apply (Hnew t'); [right; exact Ht' | exact Hin].
    + apply (IH U); [|exact Hnd | exact Hnew].
      apply sys_step_fresh_silent; assumption.
Qed.

Lemma fresh_tabs_fresh n : sys_fresh [] (fresh_tabs n).
Proof.
  split; [|split].
  - split.
    + intros k st Hk. cbn in Hk. rewrite lookup_empty in Hk. discriminate Hk.
    + intros k st Hk. cbn in Hk. apply elem_of_nil in Hk. contradiction.
  - cbn. apply Forall_replicate. apply fresh_nil.
  - cbn. constructor.
Qed.

(** C9, amended. Take any number of freshly loaded tabs on an empty storage
    and let anything happen in them, in any order: logins and logouts,
    party creations, joins, leaves, plain and AI submits in the chat, the
    responder's answers arriving later at the render that asked, video
    changes, pause and resume, seeks, the player's callbacks, poll ticks
    and storage events. If the clock readings that these events turn into
    message ids are pairwise distinct, then no chat log holds an id twice:
    not the log any tab shows, not the log stored for any party, and not
    any log that was ever written. A submit is [handleSubmit] cut at its
    [await]: the two halves, with whatever ran in between, are
    [handleSubmit] (last part). *)
Theorem ids_unique_for_distinct_clock_readings apiKey n events :
  NoDup (omap event_id events) ->
  let sys := sys_run apiKey events (fresh_tabs n) in
  (forall i a, clients sys !! i = Some a -> NoDup (ids (App.messages a))) /\
  (forall key st ms,
     items (shared sys) !! key = Some st ->
     SyncedPartyState.messages st = Some ms -> NoDup (ids ms)) /\
  (forall key st ms,
     (key, st) ∈ writes (shared sys) ->
     SyncedPartyState.messages st = Some ms -> NoDup (ids ms)) /\
  (forall generateContent a ch c_send c_ai during_await w,
     (handleSubmit apiKey generateContent a ch c_send c_ai during_await w).2 =
     if submit_awaits a ch
     then submit_resume apiKey generateContent a c_ai
            (during_await (submit_now a ch c_send w))
     else submit_now a ch c_send w).
Proof.
  intros Hnd sys.
  destruct (sys_run_fresh apiKey events [] (fresh_tabs n) (fresh_tabs_fresh n) Hnd)
    as [U (Hs & Hc & _)].
  { intros t _ Hin. apply elem_of_nil in Hin. contradiction. }
  fold sys in Hs, Hc. split; [|split; [|split]].
  - intros i a Hi. exact (proj1 (proj1 (Forall_lookup _ _) Hc i a Hi)).
  - intros key st ms Hk Hms. exact (proj1 (proj1 Hs key st Hk ms Hms)).
  - intros key st ms Hk Hms. exact (proj1 (proj2 Hs key st Hk ms Hms)).
  - intros. apply handleSubmit_split.
Qed.

Lemma ids_unique_for_distinct_clock_readings_witness :
  NoDup (omap event_id evening) /\
  let sys := sys_run "key" evening (fresh_tabs 2) in
  (forall i a, clients sys !! i = Some a -> NoDup (ids (App.messages a))) /\
  (forall key st ms,
     items (shared sys) !! key = Some st ->
     SyncedPartyState.messages st = Some ms -> NoDup (ids ms)) /\
  (forall key st ms,
     (key, st) ∈ writes (shared sys) ->
     SyncedPartyState.messages st = Some ms -> NoDup (ids ms)).
Proof.
  assert (NoDup (omap event_id evening)) as Hnd
    by (apply (bool_decide_unpack _); vm_compute; exact I).
  split; [exact Hnd|].
  pose proof (ids_unique_for_distinct_clock_readings "key" 2 evening Hnd)
    as (H1 & H2 & H3 & _).
  exact (conj H1 (conj H2 H3)).
Defined.

(** * Further properties of the code *)

(** ** Publishing and polling *)

Lemma party_key_inj c c' : party_key c = party_key c' -> c = c'.
Proof. unfold party_key. cbn. intros H. injection H as H. exact H. Qed.

(** X1. Publish round trip. A client in party [c] that publishes a payload
    issues exactly one write, under the key of [c]; reading that key back
    gives the written state, which is stamped with [c] and the clock
    reading and in which every field of the payload has won over the
    stored one. *)
Theorem publish_round_trip a payload now w c :
  current_party a = Some c ->
  let w' := updateSyncedState a payload now w in
  exists st,
    getItem (party_key c) (storage w') = Some st /\
    writes (storage w') = writes (storage w) ++ [(party_key c, st)] /\
    SyncedPartyState.partyCode st = Some c /\
    SyncedPartyState.lastUpdateTimestamp st = Some now /\
    (forall v, SyncedPartyState.videoSource payload = Some v ->
               SyncedPartyState.videoSource st = Some v) /\
    (forall b, SyncedPartyState.isPlaying payload = Some b ->
               SyncedPartyState.isPlaying st = Some b) /\
    (forall t, SyncedPartyState.currentTime payload = Some t ->
               SyncedPartyState.currentTime st = Some t) /\
    (forall us, SyncedPartyState.users payload = Some us ->
                SyncedPartyState.users st = Some us) /\
    (forall ms, SyncedPartyState.messages payload = Some ms ->
                SyncedPartyState.messages st = Some ms) /\
    app w' = syncStateFromStorage a st (app w).
Proof.
  intros Hc. cbv zeta. rewrite (updateSyncedState_in_party _ _ _ _ _ Hc).
  cbv zeta. eexists. cbn [storage app setItem items writes].
  split; [unfold getItem; cbn; apply lookup_insert_eq|].
  split; [reflexivity|]. split; [reflexivity|]. split; [reflexivity|].
  repeat split; intros x Hx; cbn; rewrite Hx; reflexivity.
Qed.

Lemma publish_round_trip_witness :
  exists st,
    getItem (party_key "ABC123")
      (storage (updateSyncedState (app alice_room) (position_only 42) 2000 alice_room))
      = Some st /\
    SyncedPartyState.currentTime st = Some 42%float /\
    SyncedPartyState.lastUpdateTimestamp st = Some 2000%N.
Proof.
  destruct (publish_round_trip (app alice_room) (position_only 42) 2000
              alice_room "ABC123" eq_refl)
    as (st & H1 & _ & _ & H4 & _ & _ & H7 & _).
  exists st. split; [exact H1|]. split; [exact (H7 _ eq_refl) | exact H4].
Defined.

(** X2. Convergence by polling. After a client of party [c] has published, the
    poll tick of any peer in the room of [c] applies the very state the
    publisher applied to itself: for every field that state carries (chat
    log, roster, video source, play state) the two views hold the same
    value afterwards. *)
Theorem publish_then_poll_converges a payload now wa b pb c :
  current_party a = Some c ->
  App.view b = ROOM ->
  current_party b = Some c ->
  let wa' := updateSyncedState a payload now wa in
  let wb' := pollTick b (mkWorld (storage wa') pb) in
  exists st,
    getItem (party_key c) (storage wa') = Some st /\
    storage wb' = storage wa' /\
    (forall ms, SyncedPartyState.messages st = Some ms ->
                App.messages (app wa') = ms /\ App.messages (app wb') = ms) /\
    (forall us, SyncedPartyState.users st = Some us ->
                App.users (app wa') = us /\ App.users (app wb') = us) /\
    (forall v, SyncedPartyState.videoSource st = Some v ->
               App.videoSource (app wa') = Some v /\
               App.videoSource (app wb') = Some v) /\
    (forall p, SyncedPartyState.isPlaying st = Some p ->
               App.isPlaying (app wa') = p /\ App.isPlaying (app wb') = p).
Proof.
  intros Ha Hv Hb. cbv zeta.
  destruct (publish_round_trip a payload now wa c Ha) as (st & G & _ & _ & _ & _ & _ & _ & _ & _ & Happ).
  cbv zeta in G, Happ. exists st. split; [exact G|].
  unfold pollTick. rewrite Hv, Hb. cbn [storage]. rewrite G.
  cbn [storage app upd_app]. split; [reflexivity|]. rewrite Happ.
  repeat split.
  - rewrite sync_messages, H. reflexivity.
  - rewrite sync_messages, H. reflexivity.
  - rewrite sync_users, H. reflexivity.
  - rewrite sync_users, H. reflexivity.
  - rewrite sync_videoSource, H. reflexivity.
  - rewrite sync_videoSource, H. reflexivity.
  - rewrite sync_isPlaying, H. reflexivity.
  - rewrite sync_isPlaying, H. reflexivity.
Qed.

Lemma publish_then_poll_converges_witness :
  let sent := handleSendMessage (app alice_room) "hi" (tick 5000) alice_room in
  let bob_view := watching 10 [] in
  App.messages (app (pollTick bob_view (mkWorld (storage sent) bob_view))) =
  App.messages (app sent).
Proof.
  cbv zeta.
  destruct (publish_then_poll_converges (app alice_room)
              (messages_payload (App.messages (app alice_room) ++
                                 [user_message alice "hi" (tick 5000)]))
              5000
              (upd_app (App.setMessages
                          (App.messages (app alice_room) ++
                           [user_message alice "hi" (tick 5000)])) alice_room)
              (watching 10 []) (watching 10 []) "ABC123"
              eq_refl eq_refl eq_refl)
    as (st & G & _ & H & _).
  vm_compute in G. injection G as <-.
  destruct (H _ eq_refl) as [H1 H2].
  change (handleSendMessage (app alice_room) "hi" (tick 5000) alice_room)
    with (updateSyncedState (app alice_room)
            (messages_payload (App.messages (app alice_room) ++
                               [user_message alice "hi" (tick 5000)]))
            5000
            (upd_app (App.setMessages
                        (App.messages (app alice_room) ++
                         [user_message alice "hi" (tick 5000)])) alice_room)).
  rewrite H2. symmetry. exact H1.
Defined.

(** X3. The remote observation path only reads. A poll tick and a storage
    event never write to the storage, and a second poll tick with nothing
    published in between changes nothing. *)
Theorem poll_is_read_only_and_idempotent a w :
  storage (pollTick a w) = storage w /\
  pollTick a (pollTick a w) = pollTick a w /\
  forall key v, storage (handleStorageChange a key v w) = storage w.
Proof.
  split; [|split].
  - unfold pollTick. destruct (App.view a); try reflexivity.
    destruct (current_party a); [|reflexivity].
    destruct (getItem _ _); reflexivity.
  - unfold pollTick. destruct (App.view a); try reflexivity.
    destruct (current_party a) as [c|]; [|reflexivity].
    destruct (getItem (party_key c) (storage w)) as [st|] eqn:G.
    + cbn [storage upd_app]. rewrite G. unfold upd_app. cbn [storage app].
      rewrite sync_idempotent. reflexivity.
    + rewrite G. reflexivity.
  - intros key v. unfold handleStorageChange.
    destruct (App.view a); try reflexivity.
    destruct (current_party a) as [c|]; [|reflexivity].
    destruct v; [|reflexivity].
    destruct (String.eqb key (party_key c)); reflexivity.
Qed.

(** X4. Parties do not interfere. For two different party codes [c] and [c']:
    a client in party [c] ignores a storage event for the key of [c'], its
    publishes leave the state stored for [c'] as it is, and so does a join
    whose normalised code is [c]. *)
Theorem parties_do_not_interfere a j c c' :
  c' <> c ->
  current_party a = Some c ->
  JS.toUpperCase (JS.trim (App.joinCodeInput j)) = c ->
  (forall v w, handleStorageChange a (party_key c') v w = w) /\
  (forall payload now w,
     getItem (party_key c') (storage (updateSyncedState a payload now w)) =
     getItem (party_key c') (storage w)) /\
  (forall t0 t1 w w',
     joinParty j t0 t1 w = Some w' ->
     getItem (party_key c') (storage w') = getItem (party_key c') (storage w)).
Proof.
  intros Hne Ha Hj.
  assert (party_key c <> party_key c') as Hk
    by (intros E; apply Hne; symmetry; exact (party_key_inj _ _ E)).
  split; [|split].
  - intros v w. unfold handleStorageChange.
    destruct (App.view a); try reflexivity. rewrite Ha.
    destruct v; [|reflexivity].
    destruct (String.eqb_spec (party_key c') (party_key c)) as [E|_];
      [congruence | reflexivity].
  - intros payload now w. rewrite (updateSyncedState_in_party _ _ _ _ _ Ha).
    cbv zeta. unfold getItem. cbn. apply lookup_insert_ne. exact Hk.
  - intros t0 t1 w w'. unfold joinParty.
    destruct (App.currentUser j); [|intros [= <-]; reflexivity].
    destruct (negb _); [intros [= <-]; reflexivity|].
    cbv zeta. rewrite Hj.
    destruct (getItem (party_key c) (storage w)) as [state|];
      [|intros [= <-]; reflexivity].
    destruct (SyncedPartyState.users state); [|discriminate].
    destruct (SyncedPartyState.messages state); [|discriminate].
    intros [= <-]. unfold getItem. cbn. apply lookup_insert_ne. exact Hk.
Qed.

Lemma parties_do_not_interfere_witness :
  getItem (party_key "XYZ789")
    (storage (updateSyncedState (watching 10 []) (position_only 42) 2000 alice_room))
  = getItem (party_key "XYZ789") (storage alice_room).
Proof.
  exact (proj1 (proj2 (parties_do_not_interfere (watching 10 [])
                         (in_lobby bob " abc123 ") "ABC123" "XYZ789"
                         ltac:(discriminate) eq_refl eq_refl))
           (position_only 42) 2000%N alice_room).
Defined.

(** ** Party life cycle *)

Lemma toUpperCase_truthy s :
  JS.truthy_string (JS.toUpperCase s) = JS.truthy_string s.
Proof. destruct s; reflexivity. Qed.

Lemma joinParty_known a t0 t1 w u state users messages :
  App.currentUser a = Some u ->
  JS.truthy_string (JS.trim (App.joinCodeInput a)) = true ->
  getItem (party_key (JS.toUpperCase (JS.trim (App.joinCodeInput a)))) (storage w)
    = Some state ->
  SyncedPartyState.users state = Some users ->
  SyncedPartyState.messages state = Some messages ->
  joinParty a t0 t1 w =
  Some (mkWorld
          (setItem (party_key (JS.toUpperCase (JS.trim (App.joinCodeInput a))))
             (SyncedPartyState.mk
                (SyncedPartyState.partyCode state) (SyncedPartyState.hostId state)
                (SyncedPartyState.videoSource state)
                (SyncedPartyState.isPlaying state)
                (SyncedPartyState.currentTime state)
                (SyncedPartyState.lastUpdateTimestamp state)
                (Some (users ++ [u]))
                (Some (messages ++
                       [system_message (JS.toString t0)
                          (User.name u +:+ " joined the party.") t1])))
             (storage w))
          (App.setView ROOM
             (App.setPartyCode
                (Some (JS.toUpperCase (JS.trim (App.joinCodeInput a)))) (app w)))).
Proof.
  intros Hu Htr Hg Hus Hms. unfold joinParty. rewrite Hu, Htr. cbn [negb].
  cbv zeta. rewrite Hg, Hus, Hms. reflexivity.
Qed.

Lemma getItem_setItem key v s : getItem key (setItem key v s) = Some v.
Proof. unfold getItem, setItem. cbn. apply lookup_insert_eq. Qed.

(** X6. Login, then create. A name that is not blank logs the user in under
    the trimmed name without touching the storage; creating a party in the
    next render stores a state whose host id is the new user's id and whose
    roster is that user alone, marked as host, and enters the room. *)
Theorem login_then_create nameInput random_id code t0 t1 w :
  JS.truthy_string (JS.trim nameInput) = true ->
  let user := User.mk random_id (JS.trim nameInput) None None in
  let logged := handleLogin nameInput random_id w in
  let created := createParty (app logged) code t0 t1 logged in
  App.view (app logged) = LOBBY /\
  App.currentUser (app logged) = Some user /\
  storage logged = storage w /\
  exists st,
    getItem (party_key code) (storage created) = Some st /\
    writes (storage created) = writes (storage w) ++ [(party_key code, st)] /\
    SyncedPartyState.hostId st = Some random_id /\
    SyncedPartyState.users st = Some [as_host user] /\
    SyncedPartyState.messages st =
      Some [system_message "sys_init" ("Party created! Code: " +:+ code) t1] /\
    SyncedPartyState.videoSource st = None /\
    SyncedPartyState.isPlaying st = Some false /\
    App.view (app created) = ROOM /\
    App.partyCode (app created) = Some code /\
    App.users (app created) = [as_host user] /\
    Some (App.messages (app created)) = SyncedPartyState.messages st.
Proof.
  intros Hn. cbv zeta. unfold handleLogin. rewrite Hn. cbn [negb]. cbv zeta.
  split; [reflexivity|]. split; [reflexivity|]. split; [reflexivity|].
  unfold createParty. cbn [app upd_app App.currentUser App.setView setCurrentUser].
  cbv zeta. eexists. cbn [storage upd_app setItem writes items].
  split; [unfold getItem; cbn; apply lookup_insert_eq|].
  repeat split.
Qed.

Lemma login_then_create_witness :
  let created :=
    createParty (app (handleLogin "  Alice " "k3j9x0q1z" (mkWorld empty_storage (in_lobby alice ""))))
      "ABC123" 1000 1000
      (handleLogin "  Alice " "k3j9x0q1z" (mkWorld empty_storage (in_lobby alice ""))) in
  exists st,
    getItem (party_key "ABC123") (storage created) = Some st /\
    SyncedPartyState.users st = Some [as_host alice].
Proof.
  destruct (login_then_create "  Alice " "k3j9x0q1z" "ABC123" 1000 1000
              (mkWorld empty_storage (in_lobby alice "")) eq_refl)
    as (_ & _ & _ & st & H1 & _ & _ & H4 & _).
  exists st. split; [exact H1 | exact H4].
Defined.

(** X7. Create, then join. Whatever the stored state was before, once a party
    has been created under [code], a logged-in user who types that code in
    any letter case and with blanks around it joins it: the stored roster
    is the host followed by the joiner, the stored chat log is the creation
    message followed by the join announcement, and the joiner's first load
    of the room shows exactly that roster and log. *)
Theorem create_then_join a code t0 t1 w host j pj t2 t3 u :
  App.currentUser a = Some host ->
  App.currentUser j = Some u ->
  JS.truthy_string (JS.trim (App.joinCodeInput j)) = true ->
  JS.toUpperCase (JS.trim (App.joinCodeInput j)) = code ->
  let created := createParty a code t0 t1 w in
  let roster := [as_host host; u] in
  let log :=
    [system_message "sys_init" ("Party created! Code: " +:+ code) t1;
     system_message (JS.toString t2) (User.name u +:+ " joined the party.") t3] in
  exists joined st,
    joinParty j t2 t3 (mkWorld (storage created) pj) = Some joined /\
    getItem (party_key code) (storage joined) = Some st /\
    SyncedPartyState.users st = Some roster /\
    SyncedPartyState.messages st = Some log /\
    SyncedPartyState.hostId st = Some (User.id host) /\
    let loaded := pollTick (app joined) joined in
    App.view (app loaded) = ROOM /\
    App.partyCode (app loaded) = Some code /\
    App.users (app loaded) = roster /\
    App.messages (app loaded) = log.
Proof.
  intros Hhost Hu Htr Hcode. cbv zeta.
  assert (JS.truthy_string code = true) as Hc
    by (rewrite <- Hcode, toUpperCase_truthy; exact Htr).
  subst code.
  unfold createParty. rewrite Hhost. cbv zeta. cbn [storage].
  set (init := SyncedPartyState.mk _ _ _ _ _ _ _ _).
  erewrite (joinParty_known j t2 t3 _ u init); cycle 1;
    [exact Hu | exact Htr | apply getItem_setItem
    | reflexivity | reflexivity |].
  eexists _, _. split; [reflexivity|].
  cbn [storage app].
  split; [apply getItem_setItem|].
  split; [reflexivity|]. split; [reflexivity|]. split; [reflexivity|].
  unfold pollTick, current_party.
  cbn [App.view App.partyCode App.setView App.setPartyCode].
  rewrite Hc. cbn [storage]. rewrite getItem_setItem. cbn [app upd_app].
  rewrite sync_users, sync_messages.
  match goal with
  | |- context [syncStateFromStorage ?x ?y ?z] =>
      pose proof (sync_frame x y z) as F
  end.
  cbv zeta in F. destruct F as (F1 & _ & F3 & _).
  split; [exact F1|]. split; [exact F3|]. split; reflexivity.
Qed.

Lemma create_then_join_witness :
  exists joined st,
    joinParty (in_lobby bob " abc123 ") 5000 5001
      (mkWorld (storage alice_room) (in_lobby bob " abc123 ")) = Some joined /\
    getItem (party_key "ABC123") (storage joined) = Some st /\
    SyncedPartyState.users st = Some [as_host alice; bob] /\
    App.users (app (pollTick (app joined) joined)) = [as_host alice; bob].
Proof.
  destruct (create_then_join (in_lobby alice "") "ABC123" 1000 1000
              (mkWorld empty_storage (in_lobby alice "")) alice
              (in_lobby bob " abc123 ") (in_lobby bob " abc123 ") 5000 5001 bob
              eq_refl eq_refl eq_refl eq_refl)
    as (joined & st & H1 & H2 & H3 & _ & _ & _ & _ & H8 & _).
  exists joined, st. repeat split; assumption.
Defined.

(** X8. A join never looks at the roster. Joining a party one is already a
    member of appends the user once more, so the stored roster then holds
    two entries with the same user id. *)
Theorem join_never_deduplicates a t0 t1 w u state users messages :
  App.currentUser a = Some u ->
  JS.truthy_string (JS.trim (App.joinCodeInput a)) = true ->
  let code := JS.toUpperCase (JS.trim (App.joinCodeInput a)) in
  getItem (party_key code) (storage w) = Some state ->
  SyncedPartyState.users state = Some users ->
  SyncedPartyState.messages state = Some messages ->
  u ∈ users ->
  exists joined st,
    joinParty a t0 t1 w = Some joined /\
    getItem (party_key code) (storage joined) = Some st /\
    SyncedPartyState.users st = Some (users ++ [u]) /\
    length (users ++ [u]) = S (length users) /\
    ~ NoDup (User.id <$> (users ++ [u])).
Proof.
  intros Hu Htr code Hg Hus Hms Hin.
  rewrite (joinParty_known a t0 t1 w u state users messages Hu Htr Hg Hus Hms).
  eexists _, _. split; [reflexivity|].
  cbn [storage]. split; [apply getItem_setItem|].
  split; [reflexivity|]. split; [rewrite length_app; cbn; lia|].
  rewrite fmap_app. intros Hnd. apply NoDup_app in Hnd as (_ & Hd & _).
  apply (Hd (User.id u)).
  - apply list_elem_of_fmap. exists u. split; [reflexivity | exact Hin].
  - cbn. left.
Qed.

Lemma join_never_deduplicates_witness :
  let once :=
    default (mkWorld (storage alice_room) (in_lobby bob "abc123"))
      (joinParty (in_lobby bob "abc123") 5000 5000
         (mkWorld (storage alice_room) (in_lobby bob "abc123"))) in
  exists joined st,
    joinParty (in_lobby bob "abc123") 6000 6000
      (mkWorld (storage once) (in_lobby bob "abc123")) = Some joined /\
    getItem (party_key "ABC123") (storage joined) = Some st /\
    SyncedPartyState.users st = Some ([as_host alice; bob] ++ [bob]).
Proof.
  cbv zeta.
  edestruct (join_never_deduplicates (in_lobby bob "abc123") 6000 6000
               (mkWorld
                  (storage
                     (default (mkWorld (storage alice_room) (in_lobby bob "abc123"))
                        (joinParty (in_lobby bob "abc123") 5000 5000
                           (mkWorld (storage alice_room) (in_lobby bob "abc123")))))
                  (in_lobby bob "abc123"))
               bob _ [as_host alice; bob] _ eq_refl eq_refl eq_refl eq_refl eq_refl)
    as (joined & st & H1 & H2 & H3 & _).
  - right. left.
  - exists joined, st. repeat split; assumption.
Defined.

(** X9. Leaving is local. [leaveParty] clears the local view (no party, no
    video, empty roster and chat log, back in the lobby) and leaves the
    storage as it is, so the stored roster still lists the user. From then
    on the client neither publishes nor listens: poll ticks and storage
    events change nothing and [updateSyncedState] does nothing. *)
Theorem leave_is_local w :
  let left := leaveParty w in
  storage left = storage w /\
  App.view (app left) = LOBBY /\
  App.partyCode (app left) = None /\
  App.videoSource (app left) = None /\
  App.users (app left) = [] /\
  App.messages (app left) = [] /\
  App.currentUser (app left) = App.currentUser (app w) /\
  pollTick (app left) left = left /\
  (forall key v, handleStorageChange (app left) key v left = left) /\
  (forall payload now w', updateSyncedState (app left) payload now w' = w') /\
  (forall text c, storage (handleSendMessage (app left) text c left) = storage w).
Proof.
  cbv zeta. repeat split.
  intros text c. unfold handleSendMessage.
  destruct (App.currentUser (app (leaveParty w))); reflexivity.
Qed.

(** ** Transport: play, pause and seek *)

(** X10. Play and pause reach the peer without a threshold. When a client of
    party [c] toggles playback, its own view and, after the next poll tick,
    the view of every peer in the room hold the new play state and the chat
    log extended by the announcement; the peer is moved to the publisher's
    position only under the positional correction rule. *)
Theorem toggle_reaches_peer a cl w b pb c :
  current_party a = Some c ->
  App.view b = ROOM ->
  current_party b = Some c ->
  let toggled := togglePlay a cl w in
  let peer := pollTick b (mkWorld (storage toggled) pb) in
  let announcement :=
    system_message (JS.toString (t_id cl))
      (if negb (App.isPlaying a) then "Resumed video" else "Paused video")
      (t_ts cl) in
  App.isPlaying (app toggled) = negb (App.isPlaying a) /\
  App.isPlaying (app peer) = negb (App.isPlaying a) /\
  App.messages (app toggled) = App.messages a ++ [announcement] /\
  App.messages (app peer) = App.messages a ++ [announcement] /\
  App.showControls (app toggled) = true /\
  App.seekRequest (app peer) =
    if JS.truthy_number (App.currentTime a)
       && significant_drift (App.currentTime a) (App.currentTime b)
    then Some (App.currentTime a) else App.seekRequest pb.
Proof.
  intros Ha Hv Hb. cbv zeta. unfold togglePlay, resetControlsTimer. cbv zeta.
  rewrite (updateSyncedState_in_party _ _ _ _ _ Ha). cbv zeta.
  unfold pollTick. rewrite Hv, Hb.
  cbn [storage app upd_app]. rewrite getItem_setItem. cbn [app upd_app].
  cbn [App.isPlaying App.messages App.showControls App.setShowControls].
  rewrite !sync_isPlaying, !sync_messages, sync_seekRequest.
  repeat split.
Qed.

Lemma toggle_reaches_peer_witness :
  let toggled := togglePlay (app alice_room) (tick 7000) alice_room in
  let bob_view := watching 10 [] in
  App.isPlaying (app (pollTick bob_view (mkWorld (storage toggled) bob_view))) =
  negb (App.isPlaying (app alice_room)).
Proof.
  exact (proj1 (proj2 (toggle_reaches_peer (app alice_room) (tick 7000) alice_room
                         (watching 10 []) (watching 10 []) "ABC123"
                         eq_refl eq_refl eq_refl))).
Defined.

Lemma togglePlay_isPlaying a c w :
  App.isPlaying (app (togglePlay a c w)) = negb (App.isPlaying a).
Proof.
  unfold togglePlay, resetControlsTimer. cbv zeta.
  destruct (current_party a) as [code|] eqn:E.
  - rewrite (updateSyncedState_in_party _ _ _ _ _ E). cbv zeta.
    cbn [app upd_app App.isPlaying App.setShowControls].
    rewrite sync_isPlaying. reflexivity.
  - rewrite (updateSyncedState_no_party _ _ _ _ E). reflexivity.
Qed.

Lemma togglePlay_partyCode a c w :
  App.partyCode (app (togglePlay a c w)) = App.partyCode (app w).
Proof.
  unfold togglePlay, resetControlsTimer. cbv zeta.
  destruct (current_party a) as [code|] eqn:E.
  - rewrite (updateSyncedState_in_party _ _ _ _ _ E). cbv zeta.
    cbn [app upd_app App.partyCode App.setShowControls].
    match goal with
    | |- context [syncStateFromStorage ?x ?y ?z] =>
        pose proof (sync_frame x y z) as F
    end.
    cbv zeta in F. destruct F as (_ & _ & F3 & _). exact F3.
  - rewrite (updateSyncedState_no_party _ _ _ _ E). reflexivity.
Qed.

Lemma togglePlay_in_party a cl w c :
  current_party a = Some c ->
  let toggled := togglePlay a cl w in
  let announcement :=
    system_message (JS.toString (t_id cl))
      (if negb (App.isPlaying a) then "Resumed video" else "Paused video")
      (t_ts cl) in
  App.messages (app toggled) = App.messages a ++ [announcement] /\
  exists st,
    getItem (party_key c) (storage toggled) = Some st /\
    SyncedPartyState.isPlaying st = Some (negb (App.isPlaying a)) /\
    SyncedPartyState.currentTime st = Some (App.currentTime a) /\
    SyncedPartyState.messages st = Some (App.messages a ++ [announcement]).
Proof.
  intros Ha. cbv zeta. unfold togglePlay, resetControlsTimer. cbv zeta.
  rewrite (updateSyncedState_in_party _ _ _ _ _ Ha). cbv zeta.
  cbn [storage app upd_app App.messages App.setShowControls].
  rewrite sync_messages. split; [reflexivity|].
  eexists. split; [apply getItem_setItem|]. repeat split.
Qed.

(** X11. Toggling twice, with a re-render in between, restores the play state,
    in the local view and, for a client in a party, in the stored state;
    each toggle leaves its own announcement in the stored chat log. *)
Theorem toggle_twice_restores w c1 c2 :
  let once := togglePlay (app w) c1 w in
  let twice := togglePlay (app once) c2 once in
  App.isPlaying (app twice) = App.isPlaying (app w) /\
  forall c,
    current_party (app w) = Some c ->
    exists st,
      getItem (party_key c) (storage twice) = Some st /\
      SyncedPartyState.isPlaying st = Some (App.isPlaying (app w)) /\
      SyncedPartyState.messages st =
        Some ((App.messages (app w) ++
               [system_message (JS.toString (t_id c1))
                  (if negb (App.isPlaying (app w))
                   then "Resumed video" else "Paused video") (t_ts c1)]) ++
              [system_message (JS.toString (t_id c2))
                 (if App.isPlaying (app w)
                  then "Resumed video" else "Paused video") (t_ts c2)]).
Proof.
  cbv zeta. split.
  - rewrite !togglePlay_isPlaying. apply negb_involutive.
  - intros c Hc.
    assert (current_party (app (togglePlay (app w) c1 w)) = Some c) as Hc1.
    { rewrite (current_party_ext _ (app w)); [exact Hc|].
      apply togglePlay_partyCode. }
    destruct (togglePlay_in_party (app w) c1 w c Hc) as (Hm1 & _).
    destruct (togglePlay_in_party (app (togglePlay (app w) c1 w)) c2
                (togglePlay (app w) c1 w) c Hc1)
      as (_ & st & G & Hp & _ & Hm).
    cbv zeta in Hm1, G, Hp, Hm.
    rewrite togglePlay_isPlaying, negb_involutive in Hp.
    rewrite togglePlay_isPlaying, negb_involutive, Hm1 in Hm.
    exists st. split; [exact G|]. split; [exact Hp | exact Hm].
Qed.

(** X12. A seek reaches the peer under the threshold rule. When a client of
    party [c] seeks to [time], its own player is always sent there, the
    stored position becomes [time], and the next poll tick of a peer in the
    room forces the peer's player to [time] exactly when [time] is a
    truthy number more than two seconds away from the peer's position. *)
Theorem seek_reaches_peer a time now w b pb c :
  current_party a = Some c ->
  App.view b = ROOM ->
  current_party b = Some c ->
  let sought := handleSeek a time now w in
  let peer := pollTick b (mkWorld (storage sought) pb) in
  App.seekRequest (app sought) = Some time /\
  App.currentTime (app sought) = time /\
  (exists st, getItem (party_key c) (storage sought) = Some st /\
              SyncedPartyState.currentTime st = Some time) /\
  App.seekRequest (app peer) =
    if JS.truthy_number time && significant_drift time (App.currentTime b)
    then Some time else App.seekRequest pb.
Proof.
  intros Ha Hv Hb. cbv zeta. unfold handleSeek, resetControlsTimer.
  rewrite (updateSyncedState_in_party _ _ _ _ _ Ha). cbv zeta.
  unfold pollTick. rewrite Hv, Hb.
  cbn [storage app upd_app]. rewrite getItem_setItem. cbn [app upd_app].
  cbn [App.seekRequest App.currentTime App.setShowControls].
  rewrite !sync_seekRequest.
  match goal with
  | |- context [App.currentTime (syncStateFromStorage ?x ?y ?z)] =>
      pose proof (sync_frame x y z) as F
  end.
  cbv zeta in F. destruct F as (_ & _ & _ & F4 & _). rewrite F4.
  cbn. split; [destruct (_ && _); reflexivity|].
  split; [reflexivity|]. split; [|reflexivity].
  eexists. split; reflexivity.
Qed.

Lemma seek_reaches_peer_witness :
  let sought := handleSeek (app alice_room) 300 2000 alice_room in
  let bob_view := watching 10 [] in
  App.seekRequest (app (pollTick bob_view (mkWorld (storage sought) bob_view)))
  = Some 300%float.
Proof.
  exact (proj2 (proj2 (proj2 (seek_reaches_peer (app alice_room) 300 2000 alice_room
                                (watching 10 []) (watching 10 []) "ABC123"
                                eq_refl eq_refl eq_refl)))).
Defined.

(** ** Chat *)

Lemma handleSendMessage_messages a text c w u :
  App.currentUser a = Some u ->
  App.messages (app (handleSendMessage a text c w)) =
  App.messages a ++ [user_message u text c].
Proof.
  intros Hu. unfold handleSendMessage. rewrite Hu. cbv zeta.
  destruct (current_party a) as [code|] eqn:E.
  - rewrite (updateSyncedState_in_party _ _ _ _ _ E). cbv zeta.
    cbn [app]. rewrite sync_messages. reflexivity.
  - rewrite (updateSyncedState_no_party _ _ _ _ E). reflexivity.
Qed.

(** X16. A plain submit. With the AI switch off, a blank input does nothing at
    all; any other input is sent verbatim (the text is tested trimmed but
    sent untrimmed) as one message under the user's display name, the input
    line is cleared, and the new chat log is stored when the client is in a
    party, while without a party nothing is written. *)
Theorem plain_submit_sends_verbatim apiKey generateContent a ch c_send c_ai
    during_await w u :
  App.currentUser a = Some u ->
  isAiMode ch = false ->
  let result := handleSubmit apiKey generateContent a ch c_send c_ai during_await w in
  if JS.truthy_string (JS.trim (input ch)) then
    input result.1 = "" /\
    App.messages (app result.2) =
      App.messages a ++ [user_message u (input ch) c_send] /\
    (forall c, current_party a = Some c ->
               stored_log c (storage result.2) =
               Some (App.messages a ++ [user_message u (input ch) c_send])) /\
    (current_party a = None -> storage result.2 = storage w)
  else result = (ch, w).
Proof.
  intros Hu Hm. cbv zeta. unfold handleSubmit. rewrite Hu, Hm.
  destruct (JS.truthy_string (JS.trim (input ch))); cbn [negb]; [|reflexivity].
  cbn [fst snd]. split; [reflexivity|].
  split; [apply (handleSendMessage_messages _ _ _ _ _ Hu)|].
  unfold handleSendMessage. rewrite Hu. cbv zeta. split.
  - intros c Hc. rewrite (updateSyncedState_in_party _ _ _ _ _ Hc). cbv zeta.
    cbn [storage]. rewrite stored_log_setItem. reflexivity.
  - intros Hc. rewrite (updateSyncedState_no_party _ _ _ _ Hc). reflexivity.
Qed.

Lemma plain_submit_sends_verbatim_witness :
  App.messages
    (app (handleSubmit "key" rejecting (app alice_room) (mkChat " hello " false false)
            (tick 6000) (tick 6500) (pollTick (app alice_room)) alice_room).2)
  = App.messages (app alice_room) ++ [user_message alice " hello " (tick 6000)].
Proof.
  exact (proj1 (proj2 (plain_submit_sends_verbatim "key" rejecting (app alice_room)
                         (mkChat " hello " false false) (tick 6000) (tick 6500)
                         (pollTick (app alice_room)) alice_room alice
                         eq_refl eq_refl))).
Defined.

(** X17. An AI submit loses the question. The reply handler belongs to the
    render the panel was shown in, so it appends the reply to the chat log
    of that render: the user's own message, which the first step had put in
    the log, is no longer in the local chat log once the reply is in (nor
    in the stored one), whatever the responder answered. *)
Theorem ai_submit_overwrites_question apiKey generateContent a ch c_send c_ai
    during_await w u :
  App.currentUser a = Some u ->
  JS.truthy_string (JS.trim (input ch)) = true ->
  isAiMode ch = true ->
  JS.toString (t_id c_send) ∉ ids (App.messages a) ->
  let question := user_message u (input ch) c_send in
  let sent := handleSendMessage a (input ch) c_send w in
  let final :=
    (handleSubmit apiKey generateContent a ch c_send c_ai during_await w).2 in
  (question ∈ App.messages (app sent)) /\
  (question ∉ App.messages (app final)) /\
  length (App.messages (app final)) = S (length (App.messages a)) /\
  (forall c ms, current_party a = Some c ->
                stored_log c (storage final) = Some ms -> question ∉ ms).
Proof.
  intros Hu Hin Hai Hid. cbv zeta.
  assert (forall reply,
            user_message u (input ch) c_send ∉
            App.messages a ++ [reply_message reply c_ai]) as Hnot.
  { intros reply Hq. apply elem_of_app in Hq as [Hq|Hq].
    - apply Hid. unfold ids. apply list_elem_of_In, in_map_iff.
      exists (user_message u (input ch) c_send).
      split; [reflexivity | apply list_elem_of_In; exact Hq].
    - apply list_elem_of_singleton in Hq. discriminate Hq. }
  split; [|split; [|split]].
  - rewrite (handleSendMessage_messages _ _ _ _ _ Hu).
    apply elem_of_app. right. apply list_elem_of_singleton. reflexivity.
  - unfold handleSubmit. rewrite Hu, Hin, Hai. cbn [negb snd]. cbv zeta.
    rewrite handleAiResponse_messages. apply Hnot.
  - unfold handleSubmit. rewrite Hu, Hin, Hai. cbn [negb snd]. cbv zeta.
    rewrite handleAiResponse_messages, length_app. cbn. lia.
  - intros c ms Hc. unfold handleSubmit. rewrite Hu, Hin, Hai.
    cbn [negb snd]. cbv zeta.
    rewrite (handleAiResponse_stored _ _ _ _ _ Hc). intros [= <-]. apply Hnot.
Qed.

Lemma ai_submit_overwrites_question_witness :
  let final :=
    (handleSubmit "key" (resolving (Some "Great scene!")) (app alice_room)
       (asking "Who directed this?") (tick 6000) (tick 6500)
       (pollTick (app alice_room)) alice_room).2 in
  user_message alice "Who directed this?" (tick 6000) ∉ App.messages (app final).
Proof.
  refine (proj1 (proj2 (ai_submit_overwrites_question "key"
                          (resolving (Some "Great scene!")) (app alice_room)
                          (asking "Who directed this?") (tick 6000) (tick 6500)
                          (pollTick (app alice_room)) alice_room alice
                          eq_refl eq_refl eq_refl _))).
  apply (bool_decide_unpack _). vm_compute. exact I.
Defined.

(** ** What the responder is given *)

Lemma chat_history_unfold messages u :
  chat_history messages u =
  history_entry
    <$> JS.slice_last 6
          (List.filter
             (fun m => JS.truthy_flag (ChatMessage.isAi m)
                       || String.eqb (ChatMessage.sender m) (User.name u))
             messages).
Proof. reflexivity. Qed.

(** X18. The request. With an API key configured, the responder is asked once,
    with model gemini-2.5-flash and at most seven contents: the system
    prompt naming what is being watched, as a user turn, followed by the
    history in order, each entry under the very role the chat panel gave it
    (the service's re-tagging is the identity on "user" and "model").
    Without a key the responder is not consulted: the reply is the fixed
    notice whatever the responder would do. *)
Theorem responder_request_shape apiKey generateContent messages u currentContext :
  JS.truthy_string apiKey = true ->
  let history := chat_history messages u in
  let request :=
    mkRequest "gemini-2.5-flash"
      (mkContent "user" [systemPrompt currentContext]
       :: map (fun e => mkContent (role e) [content e]) history) in
  generateAiChatResponse apiKey generateContent history currentContext =
    reply_text (generateContent request) /\
  length (contents request) <= 7 /\
  Forall (fun c => c_role c = "user" \/ c_role c = "model") (contents request) /\
  generateAiChatResponse "" generateContent history currentContext =
    "I can't chat right now, my API key is missing!".
Proof.
  intros K. cbv zeta.
  assert (Forall (fun e => role e = "user" \/ role e = "model")
                 (chat_history messages u)) as Hroles.
  { rewrite chat_history_unfold. apply Forall_fmap, Forall_forall.
    intros m _. unfold history_entry. cbn.
    destruct (JS.truthy_flag (ChatMessage.isAi m)); auto. }
  rewrite Forall_forall in Hroles.
  split; [|split; [|split]].
  - rewrite (generateAiChatResponse_with_key _ _ _ _ K). unfold request_for.
    do 4 f_equal. apply List.map_ext_in. intros e He.
    apply list_elem_of_In in He.
    destruct (Hroles e He) as [-> | ->]; reflexivity.
  - cbn. rewrite length_map, chat_history_unfold, length_fmap, slice_last_length.
    lia.
  - cbn [contents]. constructor; [left; reflexivity|].
    apply Forall_forall. intros c Hc.
    apply list_elem_of_In, in_map_iff in Hc as (e & <- & He).
    apply list_elem_of_In in He. exact (Hroles e He).
  - reflexivity.
Qed.

Lemma responder_request_shape_witness :
  generateAiChatResponse "key" (resolving (Some "Great scene!"))
    (chat_history [chat_msg "1700000000001" "Bob" "hello"] bob) "Big Buck Bunny"
  = "Great scene!".
Proof.
  exact (proj1 (responder_request_shape "key" (resolving (Some "Great scene!"))
                  [chat_msg "1700000000001" "Bob" "hello"] bob "Big Buck Bunny"
                  eq_refl)).
Defined.

(** X19. Messages of others do not count. A message that is not an AI message
    and whose sender name differs from the local user's display name takes
    no part in the history: with it or without it the history is the
    same, so such a message never uses up one of the six places. *)
Theorem history_ignores_foreign_messages before m after u :
  JS.truthy_flag (ChatMessage.isAi m) = false ->
  ChatMessage.sender m <> User.name u ->
  chat_history (before ++ m :: after) u = chat_history (before ++ after) u.
Proof.
  intros Hai Hs. rewrite !chat_history_unfold.
  rewrite !List.filter_app. cbn [List.filter].
  apply String.eqb_neq in Hs. rewrite Hai, Hs. reflexivity.
Qed.

Lemma history_ignores_foreign_messages_witness :
  chat_history ([chat_msg "1700000000001" "Bob" "hello"] ++
                chat_msg "1700000000003" "Alice" "hey" ::
                [chat_msg "1700000000004" "Bob" "you there?"]) bob
  = chat_history ([chat_msg "1700000000001" "Bob" "hello"] ++
                  [chat_msg "1700000000004" "Bob" "you there?"]) bob.
Proof.
  apply history_ignores_foreign_messages; [reflexivity | discriminate].
Defined.

(** X20. The latest own line is always there. When the most recent message is
    an AI message or bears the local user's display name, it is the last
    entry of the history, however long the chat log is; and when at most
    six messages qualify, the history holds every one of them. *)
Theorem history_keeps_latest messages m u :
  JS.truthy_flag (ChatMessage.isAi m)
  || String.eqb (ChatMessage.sender m) (User.name u) = true ->
  let qualifies m :=
    JS.truthy_flag (ChatMessage.isAi m)
    || String.eqb (ChatMessage.sender m) (User.name u) in
  last (chat_history (messages ++ [m]) u) = Some (history_entry m) /\
  (length (List.filter qualifies (messages ++ [m])) <= 6 ->
   chat_history (messages ++ [m]) u =
   history_entry <$> List.filter qualifies (messages ++ [m])).
Proof.
  intros Hq. cbv zeta. rewrite !chat_history_unfold.
  rewrite List.filter_app. cbn [List.filter]. rewrite Hq.
  set (own := List.filter _ messages). split.
  - unfold JS.slice_last. rewrite length_app. cbn [length].
    rewrite drop_app_le by lia. rewrite fmap_app. cbn. apply last_snoc.
  - intros Hlen. unfold JS.slice_last.
    replace (length (own ++ [m]) - 6) with 0 by lia. reflexivity.
Qed.

Lemma history_keeps_latest_witness :
  last (chat_history ([join_announcement; chat_msg "1700000000003" "Alice" "hey"] ++
                      [chat_msg "1700000000004" "Bob" "you there?"]) bob)
  = Some (history_entry (chat_msg "1700000000004" "Bob" "you there?")).
Proof.
  exact (proj1 (history_keeps_latest
                  [join_announcement; chat_msg "1700000000003" "Alice" "hey"]
                  (chat_msg "1700000000004" "Bob" "you there?") bob eq_refl)).
Defined.

(** ** Propagation between clients *)

(** X5. Push and poll agree. For a client in the room of party [c], the storage
    event that delivers the state now stored for [c] and the poll tick
    apply the same update, and a poll tick that follows such an event
    changes nothing: the two channels can duplicate each other
    harmlessly. *)
Theorem push_and_poll_agree a w c st :
  App.view a = ROOM ->
  current_party a = Some c ->
  getItem (party_key c) (storage w) = Some st ->
  handleStorageChange a (party_key c) (Some st) w = pollTick a w /\
  pollTick a (handleStorageChange a (party_key c) (Some st) w) = pollTick a w.
Proof.
  intros Hv Hc Hg.
  assert (handleStorageChange a (party_key c) (Some st) w = pollTick a w) as E.
  { unfold handleStorageChange, pollTick. rewrite Hv, Hc, Hg, String.eqb_refl.
    reflexivity. }
  split; [exact E|]. rewrite E.
  unfold pollTick. rewrite Hv, Hc, Hg. cbn [storage upd_app]. rewrite Hg.
  unfold upd_app. cbn [storage app]. rewrite sync_idempotent. reflexivity.
Qed.

Lemma push_and_poll_agree_witness :
  exists st,
    getItem (party_key "ABC123") (storage alice_room) = Some st /\
    handleStorageChange (watching 10 []) (party_key "ABC123") (Some st)
      (mkWorld (storage alice_room) (watching 10 []))
    = pollTick (watching 10 []) (mkWorld (storage alice_room) (watching 10 [])).
Proof.
  eexists. split; [vm_compute; reflexivity|].
  exact (proj1 (push_and_poll_agree (watching 10 [])
                  (mkWorld (storage alice_room) (watching 10 [])) "ABC123" _
                  eq_refl eq_refl eq_refl)).
Defined.

Lemma publish_video_peer a src text cl w0 b pb c :
  current_party a = Some c ->
  App.view b = ROOM ->
  current_party b = Some c ->
  let changed := updateSyncedState a (video_payload a src text cl) (t_upd cl) w0 in
  let peer := pollTick b (mkWorld (storage changed) pb) in
  App.videoSource (app changed) = Some src /\
  App.videoSource (app peer) = Some src /\
  App.isPlaying (app changed) = false /\
  App.isPlaying (app peer) = false /\
  App.seekRequest (app peer) = App.seekRequest pb /\
  App.messages (app peer) = App.messages (app changed) /\
  length (App.messages (app changed)) = S (length (App.messages a)).
Proof.
  intros Ha Hv Hb. cbv zeta.
  rewrite (updateSyncedState_in_party _ _ _ _ _ Ha). cbv zeta.
  unfold pollTick. rewrite Hv, Hb.
  cbn [storage app upd_app]. rewrite getItem_setItem. cbn [app upd_app].
  rewrite !sync_videoSource, !sync_isPlaying, !sync_messages, sync_seekRequest.
  cbn. rewrite length_app. cbn. repeat split. lia.
Qed.

(** X13. A video change reaches the peer, but not its position. After a client
    of party [c] has changed the video (and its handler accepted the
    input), the next poll tick of a peer in the room loads the same source,
    pauses, and shows the same chat log, one message longer than the
    publisher's was; the published position 0 never moves the peer's
    player. *)
Theorem video_change_reaches_peer a v cl w b pb c :
  current_party a = Some c ->
  video_change_accepted a v = true ->
  App.view b = ROOM ->
  current_party b = Some c ->
  let changed := video_change a v cl w in
  let peer := pollTick b (mkWorld (storage changed) pb) in
  is_Some (App.videoSource (app changed)) /\
  App.videoSource (app peer) = App.videoSource (app changed) /\
  App.isPlaying (app changed) = false /\
  App.isPlaying (app peer) = false /\
  App.seekRequest (app peer) = App.seekRequest pb /\
  App.messages (app peer) = App.messages (app changed) /\
  length (App.messages (app changed)) = S (length (App.messages a)).
Proof.
  intros Ha Hacc Hv Hb. cbv zeta.
  destruct v as [file_name url| |sample]; cbn [video_change].
  - unfold handleFileSelect.
    destruct (publish_video_peer a (VideoSource.mk FILE url file_name)
                ("Changed video to " +:+ file_name) cl
                (upd_app (App.setVideoSource
                            (Some (VideoSource.mk FILE url file_name))) w)
                b pb c Ha Hv Hb) as (H1 & H2 & H3 & H4 & H5 & H6 & H7).
    cbv zeta in *. rewrite H1, H2. repeat split; eauto.
  - unfold handleUrlSubmit. cbv zeta. cbn in Hacc. rewrite Hacc. cbn [negb].
    match goal with
    | |- context [VideoSource.mk ?ty (App.urlInput a) "Streamed Video"] =>
        set (src := VideoSource.mk ty (App.urlInput a) "Streamed Video")
    end.
    destruct (publish_video_peer a src "Loaded video from URL" cl
                (upd_app (fun p => App.setUrlInput ""
                                     (App.setVideoSource (Some src) p)) w)
                b pb c Ha Hv Hb) as (H1 & H2 & H3 & H4 & H5 & H6 & H7).
    cbv zeta in *. rewrite H1, H2. repeat split; eauto.
  - unfold joinSample.
    destruct (publish_video_peer a sample ("Loaded " +:+ VideoSource.name sample) cl
                (upd_app (App.setVideoSource (Some sample)) w)
                b pb c Ha Hv Hb) as (H1 & H2 & H3 & H4 & H5 & H6 & H7).
    cbv zeta in *. rewrite H1, H2. repeat split; eauto.
Qed.

Lemma video_change_reaches_peer_witness :
  let changed :=
    video_change (app alice_room) (ChooseSample (VideoSource.mk YOUTUBE
        "https://www.youtube.com/watch?v=jfKfPfyJRdk" "Lofi Girl (YouTube)"))
      (tick 8000) alice_room in
  let bob_view := watching 300 [] in
  let peer := pollTick bob_view (mkWorld (storage changed) bob_view) in
  App.videoSource (app peer) = App.videoSource (app changed) /\
  App.seekRequest (app peer) = None.
Proof.
  destruct (video_change_reaches_peer (app alice_room)
              (ChooseSample (VideoSource.mk YOUTUBE
                 "https://www.youtube.com/watch?v=jfKfPfyJRdk" "Lofi Girl (YouTube)"))
              (tick 8000) alice_room (watching 300 []) (watching 300 []) "ABC123"
              eq_refl eq_refl eq_refl eq_refl)
    as (_ & H2 & _ & _ & H5 & _).
  split; [exact H2 | exact H5].
Defined.

(** X14. Last writer wins, wholesale. A send publishes the chat log of the
    render it runs in, whatever is stored: when a second client of the same
    party sends from a render that has not seen the first client's message,
    the stored chat log is the second client's log plus its message, the
    first message is gone from it, and the first client's next poll tick
    removes that message from its own view too. *)
Theorem stale_send_overwrites a b wa pb c ua ub ta tb ca cb :
  current_party a = Some c ->
  current_party b = Some c ->
  App.view a = ROOM ->
  App.currentUser a = Some ua ->
  App.currentUser b = Some ub ->
  JS.toString (t_id ca) ∉ ids (App.messages b) ->
  t_id ca <> t_id cb ->
  let first := handleSendMessage a ta ca wa in
  let second := handleSendMessage b tb cb (mkWorld (storage first) pb) in
  let lost := user_message ua ta ca in
  stored_log c (storage first) = Some (App.messages a ++ [lost]) /\
  stored_log c (storage second) = Some (App.messages b ++ [user_message ub tb cb]) /\
  (lost ∉ App.messages b ++ [user_message ub tb cb]) /\
  App.messages (app (pollTick a (mkWorld (storage second) (app first)))) =
    App.messages b ++ [user_message ub tb cb].
Proof.
  intros Ha Hb Hv Hua Hub Hfresh Hne. cbv zeta.
  assert (forall x text cl w u,
            current_party x = Some c -> App.currentUser x = Some u ->
            stored_log c (storage (handleSendMessage x text cl w)) =
            Some (App.messages x ++ [user_message u text cl])) as Hstored.
  { intros x text cl w u Hx Hu. unfold handleSendMessage. rewrite Hu. cbv zeta.
    rewrite (updateSyncedState_in_party _ _ _ _ _ Hx). cbv zeta.
    cbn [storage]. apply stored_log_setItem. }
  split; [apply (Hstored _ _ _ _ _ Ha Hua)|].
  split; [apply (Hstored _ _ _ _ _ Hb Hub)|].
  split.
  - intros Hin. apply elem_of_app in Hin as [Hin|Hin].
    + apply Hfresh. unfold ids. apply list_elem_of_In, in_map_iff.
      exists (user_message ua ta ca).
      split; [reflexivity | apply list_elem_of_In; exact Hin].
    + apply list_elem_of_singleton in Hin.
      apply (f_equal ChatMessage.id) in Hin. cbn in Hin.
      apply toString_inj in Hin. exact (Hne Hin).
  - pose proof (Hstored b tb cb (mkWorld (storage (handleSendMessage a ta ca wa)) pb)
                  ub Hb Hub) as Hs.
    unfold stored_log in Hs. unfold pollTick. rewrite Hv, Ha. cbn [storage].
    destruct (getItem (party_key c) _) as [st|]; [|discriminate Hs].
    cbn in Hs. cbn [app upd_app]. rewrite sync_messages, Hs. reflexivity.
Qed.

Lemma stale_send_overwrites_witness :
  let first := handleSendMessage (app alice_room) "hi" (tick 5000) alice_room in
  let bob_view := watching 10 (App.messages (app alice_room)) in
  let second :=
    handleSendMessage bob_view "hello" (tick 5001)
      (mkWorld (storage first) bob_view) in
  App.messages (app (pollTick (app alice_room) (mkWorld (storage second) (app first))))
  = App.messages bob_view ++ [user_message bob "hello" (tick 5001)].
Proof.
  refine (proj2 (proj2 (proj2
            (stale_send_overwrites (app alice_room)
               (watching 10 (App.messages (app alice_room))) alice_room
               (watching 10 (App.messages (app alice_room))) "ABC123"
               alice bob "hi" "hello" (tick 5000) (tick 5001)
               eq_refl eq_refl eq_refl eq_refl eq_refl _ _)))).
  - apply (bool_decide_unpack _). vm_compute. exact I.
  - discriminate.
Defined.

(** X15. Publishing onto an empty slot. When nothing is stored under the key of
    the client's party, a send still publishes, starting from the empty
    object: the stored state then has a chat log but no roster and no host,
    and a join with that code dies on the missing roster without writing
    anything. *)
Theorem publish_on_missing_key a text cl w c u j pj uj t0 t1 :
  current_party a = Some c ->
  App.currentUser a = Some u ->
  getItem (party_key c) (storage w) = None ->
  App.currentUser j = Some uj ->
  JS.truthy_string (JS.trim (App.joinCodeInput j)) = true ->
  JS.toUpperCase (JS.trim (App.joinCodeInput j)) = c ->
  let sent := handleSendMessage a text cl w in
  exists st,
    getItem (party_key c) (storage sent) = Some st /\
    SyncedPartyState.messages st = Some (App.messages a ++ [user_message u text cl]) /\
    SyncedPartyState.users st = None /\
    SyncedPartyState.hostId st = None /\
    SyncedPartyState.partyCode st = Some c /\
    joinParty j t0 t1 (mkWorld (storage sent) pj) = None.
Proof.
  intros Ha Hu Hg Huj Htr Hcode. cbv zeta.
  unfold handleSendMessage. rewrite Hu. cbv zeta.
  rewrite (updateSyncedState_in_party _ _ _ _ _ Ha). cbv zeta.
  cbn [storage upd_app]. rewrite Hg. cbn [default].
  eexists. split; [apply getItem_setItem|].
  split; [reflexivity|]. split; [reflexivity|]. split; [reflexivity|].
  split; [reflexivity|].
  unfold joinParty. rewrite Huj, Htr. cbn [negb]. cbv zeta. rewrite Hcode.
  cbn [storage]. rewrite getItem_setItem. reflexivity.
Qed.

Lemma publish_on_missing_key_witness :
  joinParty (in_lobby alice "abc123") 9000 9000
    (mkWorld
       (storage (handleSendMessage (watching 10 []) "anyone?" (tick 8000)
                   (mkWorld empty_storage (watching 10 []))))
       (in_lobby alice "abc123"))
  = None.
Proof.
  destruct (publish_on_missing_key (watching 10 []) "anyone?" (tick 8000)
              (mkWorld empty_storage (watching 10 [])) "ABC123" bob
              (in_lobby alice "abc123") (in_lobby alice "abc123") alice 9000 9000
              eq_refl eq_refl eq_refl eq_refl eq_refl eq_refl)
    as (st & _ & _ & _ & _ & _ & H).
  exact H.
Defined.
